(** * chat-handler.js: the Gemini chat relay

    A shallow embedding of [handleGeminiChat] and [createResponse] from
    [src/chat-handler.js], and the properties the specification states of
    them.

    The handler is JavaScript: it receives arbitrary values, reads their
    properties, calls string and array built-ins, may throw, and talks to one
    external collaborator ([fetch]).  The embedding therefore has

    - [JS]: the fragment of the language the handler uses (strings as
      sequences of UTF-16 code units, plain data values, ToBoolean, property
      reads, [trim], [slice], [for ... of]);
    - [Eff]: a writer-and-exception monad; the trace records every [fetch]
      and every [console.error] in program order;
    - the handler itself, written statement by statement in that monad. *)

From Stdlib Require Import List ZArith NArith Bool String Ascii Lia SpecFloat.
From Stdlib Require Strings.Byte.
Import ListNotations.

Set Warnings "-register-all".

(** ** The JavaScript fragment *)

Module JS.

(** A string is its sequence of UTF-16 code units. *)
Definition jsstring := list N.

(** Source literals are ASCII: one code unit per character. *)
Definition str (s : string) : jsstring :=
  map N_of_ascii (list_ascii_of_string s).

Fixpoint str_eqb (a b : jsstring) : bool :=
  match a, b with
  | [], [] => true
  | x :: a', y :: b' => N.eqb x y && str_eqb a' b'
  | _, _ => false
  end.

(** WhiteSpace and LineTerminator code points, the ones [trim] strips. *)
Definition is_white_space (c : N) : bool :=
  existsb (N.eqb c)
    [9; 10; 11; 12; 13; 32; 160; 5760; 8232; 8233; 8239; 8287; 12288; 65279]%N
  || (N.leb 8192 c && N.leb c 8202).

Fixpoint trim_start (s : jsstring) : jsstring :=
  match s with
  | c :: s' => if is_white_space c then trim_start s' else s
  | [] => []
  end.

(** [String.prototype.trim] *)
Definition trim (s : jsstring) : jsstring := rev (trim_start (rev (trim_start s))).

(** Plain data: what JSON.parse produces, and [undefined]. *)
Inductive value :=
| VUndefined
| VNull
| VBool (b : bool)
| VNumber (x : spec_float)
| VString (s : jsstring)
| VArray (elems : list value)
| VObject (props : list (jsstring * value)).

(** What a throw or a rejected promise carries. *)
Inductive exn :=
| TypeError
| Rejected (reason : jsstring).

Inductive completion (A : Type) :=
| Normal (a : A)
| Abrupt (e : exn).
Arguments Normal {A} a.
Arguments Abrupt {A} e.

(** ToBoolean *)
Definition truthy (v : value) : bool :=
  match v with
  | VUndefined | VNull => false
  | VBool b => b
  | VNumber (S754_zero _) | VNumber S754_nan => false
  | VNumber _ => true
  | VString [] => false
  | VString _ => true
  | VArray _ | VObject _ => true
  end.

Definition is_nullish (v : value) : bool :=
  match v with VUndefined | VNull => true | _ => false end.

(** Own property of an object; the first binding of a key is the live one. *)
Fixpoint lookup (k : jsstring) (props : list (jsstring * value)) : option value :=
  match props with
  | [] => None
  | (k', v) :: rest => if str_eqb k k' then Some v else lookup k rest
  end.

(** [v.name], for the names this program reads ([GEMINI_API_KEY],
    [GEMINI_MODEL_NAME], [sender], [message], [candidates], [content],
    [parts], [text]): none of them is an index or a property of a built-in
    prototype, so only plain objects can hold them.  Reading a property of
    [undefined] or [null] throws. *)
Definition get_prop (v : value) (name : jsstring) : completion value :=
  match v with
  | VUndefined | VNull => Abrupt TypeError
  | VObject props =>
      Normal (match lookup name props with Some x => x | None => VUndefined end)
  | VBool _ | VNumber _ | VString _ | VArray _ => Normal VUndefined
  end.

(** [v[0]] *)
Definition get_index0 (v : value) : completion value :=
  match v with
  | VUndefined | VNull => Abrupt TypeError
  | VArray elems => Normal (nth 0 elems VUndefined)
  | VString (c :: _) => Normal (VString [c])
  | VString [] => Normal VUndefined
  | VObject props =>
      Normal (match lookup (str "0") props with Some x => x | None => VUndefined end)
  | VBool _ | VNumber _ => Normal VUndefined
  end.

(** [v.trim()]: only a string has the method; no plain data value is
    callable, so every other receiver throws. *)
Definition call_trim (v : value) : completion jsstring :=
  match v with
  | VString s => Normal (trim s)
  | _ => Abrupt TypeError
  end.

(** The last [n] elements: what [slice(-n)] keeps. *)
Definition last_n {A : Type} (n : nat) (l : list A) : list A :=
  skipn (List.length l - n) l.

(** [v.slice(-n)]: arrays and strings have the method. *)
Definition call_slice_neg (v : value) (n : nat) : completion value :=
  match v with
  | VArray elems => Normal (VArray (last_n n elems))
  | VString s => Normal (VString (last_n n s))
  | _ => Abrupt TypeError
  end.

Definition is_high_surrogate (c : N) : bool := N.leb 55296 c && N.leb c 56319.
Definition is_low_surrogate (c : N) : bool := N.leb 56320 c && N.leb c 57343.

(** The string iterator yields code points, a surrogate pair as one string. *)
Fixpoint code_points (s : jsstring) : list jsstring :=
  match s with
  | [] => []
  | c :: rest =>
      match rest with
      | d :: rest' =>
          if is_high_surrogate c && is_low_surrogate d
          then [c; d] :: code_points rest'
          else [c] :: code_points rest
      | [] => [[c]]
      end
  end.

(** The values a [for (const x of v)] loop visits. *)
Definition iterate (v : value) : completion (list value) :=
  match v with
  | VArray elems => Normal elems
  | VString s => Normal (map VString (code_points s))
  | _ => Abrupt TypeError
  end.

(** [v === "literal"] *)
Definition strict_equals_str (v : value) (lit : jsstring) : bool :=
  match v with
  | VString s => str_eqb s lit
  | _ => false
  end.

(** The doubles the source writes as literals. *)
Definition num_1000 : spec_float := S754_finite false 8796093022208000 (-43).
Definition num_0_7 : spec_float := S754_finite false 6305039478318694 (-53).

End JS.
Import JS.

(** ** The external collaborators *)

(** [fetch(url, init)] and the [Response] it resolves to. *)
Module Fetch.

Record Init := {
  method : jsstring;
  headers : list (jsstring * jsstring);
  body : jsstring
}.

Record Request := { url : jsstring; init : Init }.

(** [text()] and [json()] are promises of their own: each may reject.  No
    relation between the two is assumed. *)
Record Response := {
  status : Z;
  text : completion jsstring;
  json : completion value
}.

(** [response.ok]: the status is in the range 200-299. *)
Definition ok (r : Response) : bool :=
  (200 <=? status r)%Z && (status r <=? 299)%Z.

End Fetch.

(** What the program does to the outside world, in order. *)
Inductive log_arg :=
| LStr (s : jsstring)
| LNum (z : Z)
| LExn (e : exn).

Inductive event :=
| EFetch (req : Fetch.Request)
| EConsoleError (args : list log_arg).

(** ** Effects: a trace of events, and exceptions *)

Module Eff.

Definition M (A : Type) : Type := (completion A * list event)%type.

Definition ret {A} (a : A) : M A := (Normal a, []).

Definition bind {A B} (m : M A) (k : A -> M B) : M B :=
  match m with
  | (Normal a, t) => let (c, t') := k a in (c, t ++ t')
  | (Abrupt e, t) => (Abrupt e, t)
  end.

(** A pure step that may throw. *)
Definition lift {A} (c : completion A) : M A := (c, []).

Definition emit (ev : event) : M unit := (Normal tt, [ev]).

(** [try { m } catch (error) { handler error }] *)
Definition try_catch {A} (m : M A) (handler : exn -> M A) : M A :=
  match m with
  | (Normal a, t) => (Normal a, t)
  | (Abrupt e, t) => let (c, t') := handler e in (c, t ++ t')
  end.

Definition outcome {A} (m : M A) : completion A := fst m.
Definition trace {A} (m : M A) : list event := snd m.

End Eff.
Import Eff.

Declare Scope eff_scope.
Delimit Scope eff_scope with eff.
Notation "x <- c ;; k" := (bind c (fun x => k))
  (at level 61, c at next level, right associativity) : eff_scope.
Notation "c ;;; k" := (bind c (fun _ => k))
  (at level 61, right associativity) : eff_scope.
Local Open Scope eff_scope.

(** The requests a run sent out. *)
Fixpoint fetches (t : list event) : list Fetch.Request :=
  match t with
  | [] => []
  | EFetch r :: t' => r :: fetches t'
  | EConsoleError _ :: t' => fetches t'
  end.

(** ** The handler's data *)

(** The object [handleGeminiChat] returns.  A key the object literal does not
    write is [None]; [reply] holds whatever value was read from the upstream
    body, [undefined] included. *)
Record RelayResult := {
  success : bool;
  statusCode : Z;
  reply : option value;
  error : option jsstring
}.

(** [result.reply] and [result.error] as property reads: [undefined] when
    the key is absent. *)
Definition read_reply (r : RelayResult) : value :=
  match reply r with Some v => v | None => VUndefined end.

Definition read_error (r : RelayResult) : value :=
  match error r with Some s => VString s | None => VUndefined end.

(** A field is populated when a read of it gives something. *)
Definition populated (v : value) : bool :=
  match v with VUndefined => false | _ => true end.

Module Http.

Record Response := {
  statusCode : Z;
  headers : list (jsstring * jsstring);
  body : jsstring
}.

End Http.

(** Stand-ins for the engine's built-ins and for the network, to run the
    handler on concrete inputs.  Each fixes one behaviour among all those the
    theorems below quantify over. *)
Module Double.

(** Exact on strings and on plain objects. *)
Definition to_string (v : value) : jsstring :=
  match v with VString s => s | _ => str "[object Object]" end.

(** A serialiser that does not look at the document. *)
Definition stringify (_ : value) : jsstring := str "{}".

Definition respond (status : Z) (body : jsstring) (parsed : completion value)
  : Fetch.Request -> completion Fetch.Response :=
  fun _ => Normal {| Fetch.status := status;
                     Fetch.text := Normal body;
                     Fetch.json := parsed |}.

Definition unreachable : Fetch.Request -> completion Fetch.Response :=
  fun _ => Abrupt (Rejected (str "fetch failed")).

End Double.

Module Sample.

Definition env : value := VObject [(str "GEMINI_API_KEY", VString (str "secret"))].
Definition key : value := VString (str "secret").
Definition hello : value := VString (str "Hello").

Definition turn (sender message : string) : value :=
  VObject [(str "sender", VString (str sender));
           (str "message", VString (str message))].

Definition ten_turns : list value :=
  [turn "user" "1"; turn "bot" "2"; turn "user" "3"; turn "bot" "4";
   turn "user" "5"; turn "bot" "6"; turn "user" "7"; turn "bot" "8";
   turn "user" "9"; turn "bot" "10"].

(** [{"candidates":[{"content":{}}]}] *)
Definition body_without_parts : value :=
  VObject [(str "candidates", VArray [VObject [(str "content", VObject [])]])].

(** [{"candidates":[{"content":{"parts":[{}]}}]}] *)
Definition body_without_text : value :=
  VObject [(str "candidates",
            VArray [VObject [(str "content",
                              VObject [(str "parts", VArray [VObject []])])]])].

(** [{"error":{"status":"RESOURCE_EXHAUSTED"}}]: no [candidates] at all. *)
Definition body_without_candidates : value :=
  VObject [(str "error", VObject [(str "status", VString (str "RESOURCE_EXHAUSTED"))])].

End Sample.

(** ** The request body *)

(** What a platform hands over as [body]: a language value (a string, or a
    document that is already parsed), or a Node [Buffer] of bytes. *)
Inductive raw_body :=
| Plain (v : value)
| Buffer (bytes : list Byte.byte).

Section RequestBody.

(** [JSON.parse] and [Buffer.prototype.toString] are the engine's. *)
Variable JSON_parse : jsstring -> completion value.
Variable Buffer_toString : list Byte.byte -> jsstring.

(** Lines 126-134. *)
Definition parseRequestBody (body : raw_body) : completion value :=
  match body with
  | Plain (VString s) => JSON_parse s
  | Buffer bytes => JSON_parse (Buffer_toString bytes)
  | Plain v => Normal v
  end.

End RequestBody.

(** Further stand-ins and inputs for concrete runs. *)
Module Stub.

(** A parser that knows one document, the empty object. *)
Definition parse (s : jsstring) : completion value :=
  if str_eqb s (str "{}")
  then Normal (VObject [])
  else Abrupt (Rejected (str "Unexpected token")).

(** Bytes read as Latin-1. *)
Definition decode (bytes : list Byte.byte) : jsstring := map Byte.to_N bytes.

(** The bytes of [oops]. *)
Definition decode_me : list Byte.byte := [Byte.x6f; Byte.x6f; Byte.x70; Byte.x73].

(** [{"candidates":[{"content":{"parts":[{"text":"Hi there"}]}}]}] *)
Definition body_with_text : value :=
  VObject [(str "candidates",
            VArray [VObject [(str "content",
                              VObject [(str "parts",
                                        VArray [VObject [(str "text",
                                                          VString (str "Hi there"))]])])]])].

Definition answer (status : Z) (text : completion jsstring) (json : completion value)
  : Fetch.Request -> completion Fetch.Response :=
  fun _ => Normal {| Fetch.status := status; Fetch.text := text; Fetch.json := json |}.

(** A serialiser after [JSON.stringify], for the documents of the examples:
    strings are quoted and escaped, [undefined] members are left out and
    [undefined] elements print as [null].  Of the numbers it prints the
    integers below [10^21] and the literal [0.7]; every other number prints
    as [null], and so does [undefined] on its own. *)
Definition hex_digit (n : N) : N :=
  if N.ltb n 10 then (48 + n)%N else (87 + n)%N.

Definition unicode_escape (c : N) : jsstring :=
  [92; 117;
   hex_digit (N.shiftr c 12 mod 16); hex_digit (N.shiftr c 8 mod 16);
   hex_digit (N.shiftr c 4 mod 16); hex_digit (c mod 16)]%N.

Definition escape_unit (c : N) : jsstring :=
  (if N.eqb c 8 then [92; 98]
   else if N.eqb c 9 then [92; 116]
   else if N.eqb c 10 then [92; 110]
   else if N.eqb c 12 then [92; 102]
   else if N.eqb c 13 then [92; 114]
   else if N.eqb c 34 then [92; 34]
   else if N.eqb c 92 then [92; 92]
   else if N.ltb c 32 then unicode_escape c
   else [c])%N.

Fixpoint escape_units (s : jsstring) : jsstring :=
  match s with
  | [] => []
  | c :: rest =>
      if is_high_surrogate c then
        match rest with
        | d :: rest' =>
            if is_low_surrogate d then c :: d :: escape_units rest'
            else unicode_escape c ++ escape_units rest
        | [] => unicode_escape c
        end
      else if is_low_surrogate c then unicode_escape c ++ escape_units rest
      else escape_unit c ++ escape_units rest
  end.

Definition quote (s : jsstring) : jsstring := [34%N] ++ escape_units s ++ [34%N].

Fixpoint digits (d : Decimal.uint) : jsstring :=
  match d with
  | Decimal.Nil => []
  | Decimal.D0 d' => 48%N :: digits d'
  | Decimal.D1 d' => 49%N :: digits d'
  | Decimal.D2 d' => 50%N :: digits d'
  | Decimal.D3 d' => 51%N :: digits d'
  | Decimal.D4 d' => 52%N :: digits d'
  | Decimal.D5 d' => 53%N :: digits d'
  | Decimal.D6 d' => 54%N :: digits d'
  | Decimal.D7 d' => 55%N :: digits d'
  | Decimal.D8 d' => 56%N :: digits d'
  | Decimal.D9 d' => 57%N :: digits d'
  end.

Definition number_text (x : spec_float) : jsstring :=
  match x with
  | S754_zero _ => str "0"
  | S754_finite sign m e =>
      let scaled := if (0 <=? e)%Z then Some (Z.pos m * 2 ^ e)%Z
                    else if (Z.pos m mod 2 ^ (- e) =? 0)%Z
                         then Some (Z.pos m / 2 ^ (- e))%Z else None in
      match scaled with
      | Some n =>
          if (n <? 10 ^ 21)%Z
          then (if sign then [45%N] else []) ++ digits (N.to_uint (Z.to_N n))
          else str "null"
      | None =>
          if andb (negb sign) (andb (Pos.eqb m 6305039478318694) (Z.eqb e (-53)))
          then str "0.7" else str "null"
      end
  | S754_infinity _ | S754_nan => str "null"
  end.

Fixpoint stringify (v : value) : jsstring :=
  match v with
  | VUndefined | VNull => str "null"
  | VBool true => str "true"
  | VBool false => str "false"
  | VNumber x => number_text x
  | VString s => quote s
  | VArray elems =>
      [91%N]
      ++ (fix items (l : list value) : jsstring :=
            match l with
            | [] => []
            | x :: rest =>
                stringify x
                ++ match rest with [] => [] | _ :: _ => 44%N :: items rest end
            end) elems
      ++ [93%N]
  | VObject props =>
      [123%N]
      ++ (fix members (first : bool) (l : list (jsstring * value)) : jsstring :=
            match l with
            | [] => []
            | (k, x) :: rest =>
                match x with
                | VUndefined => members first rest
                | _ =>
                    (if first then [] else [44%N])
                    ++ quote k ++ [58%N] ++ stringify x ++ members false rest
                end
            end) true props
      ++ [125%N]
  end.




End Stub.

(** ** The program *)

Section ChatHandler.

(** Built-ins whose algorithms are the engine's: the string conversion of a
    template literal and [JSON.stringify].  The network is a function from
    the request to what [fetch] settles with. *)
Variable ToString : value -> jsstring.
Variable JSON_stringify : value -> jsstring.
Variable fetch : Fetch.Request -> completion Fetch.Response.

Definition await_fetch (req : Fetch.Request) : M Fetch.Response :=
  emit (EFetch req) ;;; lift (fetch req).

Definition console_error (args : list log_arg) : M unit :=
  emit (EConsoleError args).

(** Lines 40-47: the loop over [limitedHistory], pushing onto [contents]. *)
Fixpoint for_of_history (limitedHistory contents : list value) : M (list value) :=
  match limitedHistory with
  | [] => ret contents
  | chat :: rest =>
      sender <- lift (get_prop chat (str "sender")) ;;
      cond <- (if truthy sender
               then lift (get_prop chat (str "message"))
               else ret sender) ;;
      if truthy cond then
        sender <- lift (get_prop chat (str "sender")) ;;
        message <- lift (get_prop chat (str "message")) ;;
        for_of_history rest
          (contents ++
           [VObject
              [(str "role",
                VString (if strict_equals_str sender (str "user")
                         then str "user" else str "model"));
               (str "parts", VArray [VObject [(str "text", message)]])]])
      else for_of_history rest contents
  end.

(** Lines 92-110: the check of the parsed body and the extraction. *)
Definition extract_reply (result : value) : M RelayResult :=
  candidates <- lift (get_prop result (str "candidates")) ;;
  cond <- (if truthy candidates then
             first <- lift (get_index0 candidates) ;;
             if truthy first
             then lift (get_prop first (str "content"))
             else ret first
           else ret candidates) ;;
  if truthy cond then
    candidates <- lift (get_prop result (str "candidates")) ;;
    first <- lift (get_index0 candidates) ;;
    content <- lift (get_prop first (str "content")) ;;
    parts <- lift (get_prop content (str "parts")) ;;
    part <- lift (get_index0 parts) ;;
    reply <- lift (get_prop part (str "text")) ;;
    ret {| success := true;
           reply := Some reply;
           error := None;
           statusCode := 200 |}
  else
    ret {| success := false;
           error := Some (str "Invalid AI response");
           reply := None;
           statusCode := 500 |}.

(** Lines 76-110: what the settled response becomes. *)
Definition interpret_response (response : Fetch.Response) : M RelayResult :=
  if negb (Fetch.ok response) then
    text <- lift (Fetch.text response) ;;
    console_error
      [LStr (str "Gemini API error:"); LNum (Fetch.status response); LStr text] ;;;
    ret {| success := false;
           error := Some (str "AI service unavailable");
           reply := None;
           statusCode := 500 |}
  else
    result <- lift (Fetch.json response) ;;
    extract_reply result.

(** Lines 111-118: the [catch] block. *)
Definition on_error (error : exn) : M RelayResult :=
  console_error [LStr (str "Chat handler error:"); LExn error] ;;;
  ret {| success := false;
         error := Some (str "Internal server error");
         reply := None;
         statusCode := 500 |}.

(** Lines 13-119: the function once its parameter has been destructured.
    The three properties taken from the parameter object at line 12 are the
    three arguments; the default [chatHistory = []] applies to [undefined]
    only.  The function is [async]: its [await]s are the points where the
    collaborators settle, and it returns when they have.  The destructuring
    itself is [handleGeminiChat_call] below. *)
Definition handleGeminiChat (message chatHistory env : value) : M RelayResult :=
  let chatHistory :=
    match chatHistory with VUndefined => VArray [] | v => v end in
  try_catch
    (API_KEY <- lift (get_prop env (str "GEMINI_API_KEY")) ;;
     name <- lift (get_prop env (str "GEMINI_MODEL_NAME")) ;;
     let MODEL_NAME :=
       if truthy name then name else VString (str "gemini-2.0-flash-lite") in
     if negb (truthy API_KEY) then
       ret {| success := false;
              error := Some (str "API key not configured");
              reply := None;
              statusCode := 500 |}
     else
     blank <- (if negb (truthy message) then ret true
               else
                 trimmed <- lift (call_trim message) ;;
                 ret (str_eqb trimmed (str ""))) ;;
     if blank then
       ret {| success := false;
              error := Some (str "Message is required");
              reply := None;
              statusCode := 400 |}
     else
     limitedHistory <- lift (call_slice_neg chatHistory 10) ;;
     entries <- lift (iterate limitedHistory) ;;
     contents <- for_of_history entries [] ;;
     let contents :=
       contents ++
       [VObject [(str "role", VString (str "user"));
                 (str "parts", VArray [VObject [(str "text", message)]])]] in
     let requestBody :=
       VObject
         [(str "contents", VArray contents);
          (str "generationConfig",
           VObject [(str "maxOutputTokens", VNumber num_1000);
                    (str "temperature", VNumber num_0_7)])] in
     response <- await_fetch
       {| Fetch.url :=
            str "https://generativelanguage.googleapis.com/v1beta/models/"
            ++ ToString MODEL_NAME
            ++ str ":generateContent?key="
            ++ ToString API_KEY;
          Fetch.init :=
            {| Fetch.method := str "POST";
               Fetch.headers := [(str "Content-Type", str "application/json")];
               Fetch.body := JSON_stringify requestBody |} |} ;;
     interpret_response response)
    on_error.

(** Line 12 with lines 13-119: a call [handleGeminiChat(params)].  The
    pattern [{ message, chatHistory = [], env }] reads the three properties
    off the argument before the [try] is entered: on [undefined] or [null]
    that read throws, and the promise of the call rejects. *)
Definition handleGeminiChat_call (params : value) : M RelayResult :=
  message <- lift (get_prop params (str "message")) ;;
  chatHistory <- lift (get_prop params (str "chatHistory")) ;;
  env <- lift (get_prop params (str "env")) ;;
  handleGeminiChat message chatHistory env.

(** Lines 141-162. *)
Definition createResponse (result : RelayResult) : Http.Response :=
  let headers :=
    [(str "Access-Control-Allow-Origin", str "*");
     (str "Access-Control-Allow-Headers", str "Content-Type");
     (str "Access-Control-Allow-Methods", str "POST, OPTIONS");
     (str "Content-Type", str "application/json")] in
  if success result then
    {| Http.statusCode := statusCode result;
       Http.headers := headers;
       Http.body := JSON_stringify (VObject [(str "reply", read_reply result)]) |}
  else
    {| Http.statusCode := statusCode result;
       Http.headers := headers;
       Http.body := JSON_stringify (VObject [(str "error", read_error result)]) |}.

(** ** Vocabulary of the specification

    The payload the spec describes, written from its words: the history
    entries with a truthy [sender] and [message], in order, each mapped to a
    role-tagged entry, and the new message last. *)

(** [chat.name] where the read cannot throw. *)
Definition field (chat : value) (name : jsstring) : value :=
  match get_prop chat name with Normal v => v | Abrupt _ => VUndefined end.

Definition retained (chat : value) : bool :=
  truthy (field chat (str "sender")) && truthy (field chat (str "message")).

Definition role_of (sender : value) : jsstring :=
  if strict_equals_str sender (str "user") then str "user" else str "model".

Definition content_entry (role : jsstring) (text : value) : value :=
  VObject [(str "role", VString role);
           (str "parts", VArray [VObject [(str "text", text)]])].

Definition turn_content (chat : value) : value :=
  content_entry (role_of (field chat (str "sender"))) (field chat (str "message")).

Definition contents_for (window : list value) (message : value) : list value :=
  map turn_content (filter retained window) ++ [content_entry (str "user") message].

Definition request_body (contents : list value) : value :=
  VObject
    [(str "contents", VArray contents);
     (str "generationConfig",
      VObject [(str "maxOutputTokens", VNumber num_1000);
               (str "temperature", VNumber num_0_7)])].

Definition model_name (env : value) : value :=
  if truthy (field env (str "GEMINI_MODEL_NAME"))
  then field env (str "GEMINI_MODEL_NAME")
  else VString (str "gemini-2.0-flash-lite").

Definition request_for (model key : value) (contents : list value) : Fetch.Request :=
  {| Fetch.url :=
       str "https://generativelanguage.googleapis.com/v1beta/models/"
       ++ ToString model ++ str ":generateContent?key=" ++ ToString key;
     Fetch.init :=
       {| Fetch.method := str "POST";
          Fetch.headers := [(str "Content-Type", str "application/json")];
          Fetch.body := JSON_stringify (request_body contents) |} |}.

(** [env.GEMINI_API_KEY] reads as [key], and [key] is truthy. *)
Definition configured (env key : value) : Prop :=
  get_prop env (str "GEMINI_API_KEY") = Normal key /\ truthy key = true.

(** A message that passes line 27: a string with something besides
    whitespace in it. *)
Definition sendable (message : value) : Prop :=
  exists s, message = VString s /\ trim s <> [].

(** Absent, empty or whitespace only. *)
Definition blank (message : value) : Prop :=
  message = VUndefined \/ message = VNull \/
  exists s, message = VString s /\ forallb is_white_space s = true.

(** Every entry is a value whose properties can be read. *)
Definition readable (window : list value) : Prop :=
  Forall (fun chat => is_nullish chat = false) window.

Definition failure (code : Z) (msg : string) : RelayResult :=
  {| success := false; statusCode := code; reply := None; error := Some (str msg) |}.

(** A computation that sends nothing. *)
Definition silent {A} (m : M A) : Prop := fetches (trace m) = [].

(** The field [name] of the entry is missing. *)
Definition lacks (chat : value) (name : jsstring) : Prop :=
  exists props, chat = VObject props /\ lookup name props = None.

(** The field [name] of the entry is the empty string. *)
Definition has_empty (chat : value) (name : jsstring) : Prop :=
  exists props, chat = VObject props /\ lookup name props = Some (VString (str "")).

(** [v[0]] where the read cannot throw. *)
Definition index0 (v : value) : value :=
  match get_index0 v with Normal x => x | Abrupt _ => VUndefined end.

Definition first_candidate (result : value) : value :=
  index0 (field result (str "candidates")).

Definition first_content (result : value) : value :=
  field (first_candidate result) (str "content").

(** The condition of line 92. *)
Definition has_content (result : value) : bool :=
  truthy (field result (str "candidates"))
  && truthy (first_candidate result)
  && truthy (first_content result).

(** What each object literal of the handler satisfies: exactly one of the
    keys [reply] and [error] is written, by [success]. *)
Definition one_key (r : RelayResult) : Prop :=
  if success r
  then (exists v, reply r = Some v) /\ error r = None /\ statusCode r = 200%Z
  else reply r = None /\ (exists s, error r = Some s)
       /\ (statusCode r = 400%Z \/ statusCode r = 500%Z).

Definition yields (P : RelayResult -> Prop) (m : M RelayResult) : Prop :=
  match outcome m with Normal r => P r | Abrupt _ => True end.

(** Lines 39-47 on their own: the window, its iteration and the loop. *)
Definition prepare (chatHistory : value) : M (list value) :=
  limitedHistory <- lift (call_slice_neg chatHistory 10) ;;
  entries <- lift (iterate limitedHistory) ;;
  for_of_history entries [].

(** What the [catch] block leaves behind for a thrown [e]. *)
Definition caught (e : exn) : list event :=
  [EConsoleError [LStr (str "Chat handler error:"); LExn e]].

(** An entry the loop can have pushed: a role out of two, a truthy text. *)
Definition forwarded (entry : value) : Prop :=
  exists role text,
    entry = content_entry role text
    /\ (role = str "user" \/ role = str "model")
    /\ truthy text = true.

(** A message stopped at line 27: falsy, or a string of whitespace. *)
Definition unsendable (message : value) : Prop :=
  truthy message = false \/
  exists s, message = VString s /\ forallb is_white_space s = true.

(** The five failures the handler can return. *)
Definition fixed_failure (r : RelayResult) : Prop :=
  r = failure 500 "API key not configured"
  \/ r = failure 400 "Message is required"
  \/ r = failure 500 "AI service unavailable"
  \/ r = failure 500 "Invalid AI response"
  \/ r = failure 500 "Internal server error".

Definition relay_result (r : RelayResult) : Prop :=
  (exists v, r = {| success := true; statusCode := 200;
                    reply := Some v; error := None |})
  \/ fixed_failure r.

(** The traces a run can leave: at most one request, at most one log line,
    the request first. *)
Definition single_shot (t : list event) : Prop :=
  t = []
  \/ (exists args, t = [EConsoleError args])
  \/ (exists req, t = [EFetch req])
  \/ (exists req args, t = [EFetch req; EConsoleError args]).

(** A computation that leaves no trace at all. *)
Definition quiet {A} (m : M A) : Prop := trace m = [].

(** The console lines of a trace. *)
Fixpoint logs (t : list event) : list (list log_arg) :=
  match t with
  | [] => []
  | EConsoleError args :: t' => args :: logs t'
  | EFetch _ :: t' => logs t'
  end.

(** The two results of lines 92-110. *)
Definition extracted (r : RelayResult) : Prop :=
  (exists v, r = {| success := true; statusCode := 200;
                    reply := Some v; error := None |})
  \/ r = failure 500 "Invalid AI response".

(** The kinds of run: what is returned together with what was done. *)
Inductive run_kind : M RelayResult -> Prop :=
| RefusedKey :
    run_kind (Normal (failure 500 "API key not configured"), [])
| RefusedMessage :
    run_kind (Normal (failure 400 "Message is required"), [])
| ThrewBeforeFetch (e : exn) :
    run_kind (Normal (failure 500 "Internal server error"), caught e)
| Answered (req : Fetch.Request) (r : RelayResult) :
    extracted r -> run_kind (Normal r, [EFetch req])
| UpstreamFailed (req : Fetch.Request) (status : Z) (body : jsstring) :
    run_kind (Normal (failure 500 "AI service unavailable"),
              [EFetch req;
               EConsoleError [LStr (str "Gemini API error:"); LNum status; LStr body]])
| ThrewAfterFetch (req : Fetch.Request) (e : exn) :
    run_kind (Normal (failure 500 "Internal server error"), EFetch req :: caught e).

(** The same before the [catch] block has run. *)
Inductive body_kind : M RelayResult -> Prop :=
| BodyRefusedKey :
    body_kind (Normal (failure 500 "API key not configured"), [])
| BodyRefusedMessage :
    body_kind (Normal (failure 400 "Message is required"), [])
| BodyThrew (e : exn) : body_kind (Abrupt e, [])
| BodyAnswered (req : Fetch.Request) (r : RelayResult) :
    extracted r -> body_kind (Normal r, [EFetch req])
| BodyUpstreamFailed (req : Fetch.Request) (status : Z) (body : jsstring) :
    body_kind (Normal (failure 500 "AI service unavailable"),
               [EFetch req;
                EConsoleError [LStr (str "Gemini API error:"); LNum status; LStr body]])
| BodyThrewAfterFetch (req : Fetch.Request) (e : exn) :
    body_kind (Abrupt e, [EFetch req]).

(** Lines 76-110 alone. *)
Inductive answer_kind : M RelayResult -> Prop :=
| AnswerExtracted (r : RelayResult) : extracted r -> answer_kind (Normal r, [])
| AnswerUpstreamFailed (status : Z) (body : jsstring) :
    answer_kind (Normal (failure 500 "AI service unavailable"),
                 [EConsoleError [LStr (str "Gemini API error:"); LNum status; LStr body]])
| AnswerThrew (e : exn) : answer_kind (Abrupt e, []).

(** ** The monad's equations *)

Lemma bind_normal {A B} (a : A) (k : A -> M B) : bind (lift (Normal a)) k = k a.
Proof. unfold bind, lift. destruct (k a). reflexivity. Qed.

Lemma bind_abrupt {A B} (e : exn) (k : A -> M B) :
  bind (lift (Abrupt e)) k = (Abrupt e, []).
Proof. reflexivity. Qed.

Lemma bind_ret {A B} (a : A) (k : A -> M B) : bind (ret a) k = k a.
Proof. exact (bind_normal a k). Qed.

Lemma bind_emit {B} (ev : event) (k : unit -> M B) :
  bind (emit ev) k = (fst (k tt), ev :: snd (k tt)).
Proof. unfold bind, emit. destruct (k tt). reflexivity. Qed.

Lemma bind_assoc {A B C} (m : M A) (k : A -> M B) (h : B -> M C) :
  bind (bind m k) h = bind m (fun a => bind (k a) h).
Proof.
  destruct m as [[a | e] t]; simpl; [ | reflexivity ].
  destruct (k a) as [[b | e] t']; simpl; [ | reflexivity ].
  destruct (h b) as [c t'']. now rewrite app_assoc.
Qed.

Lemma try_catch_normal {A} (a : A) (t : list event) (handler : exn -> M A) :
  try_catch (Normal a, t) handler = (Normal a, t).
Proof. reflexivity. Qed.

(** ** Facts about the built-ins *)

(** The two number literals are binary64 values: [1000] exactly, and the
    double nearest to [0.7]. *)
Lemma number_literals :
  valid_binary 53 1024 num_1000 = true
  /\ valid_binary 53 1024 num_0_7 = true
  /\ (8796093022208000 = 1000 * 2 ^ 43)%Z
  /\ (Z.abs (10 * 6305039478318694 - 7 * 2 ^ 53) <= 5)%Z.
Proof. repeat split; try reflexivity. now vm_compute. Qed.

Lemma str_eqb_eq (a b : jsstring) : str_eqb a b = true <-> a = b.
Proof.
  revert b; induction a as [ | x a IH]; intros [ | y b]; simpl;
    try (split; [discriminate | discriminate]); [ tauto | ].
  rewrite andb_true_iff, N.eqb_eq, IH. split.
  - intros [-> ->]. reflexivity.
  - intros H; injection H as -> ->. auto.
Qed.

Lemma trim_start_blank (s : jsstring) :
  forallb is_white_space s = true -> trim_start s = [].
Proof.
  induction s as [ | c s IH]; simpl; [ reflexivity | ].
  destruct (is_white_space c); simpl; [ exact IH | discriminate ].
Qed.

Lemma trim_blank (s : jsstring) : forallb is_white_space s = true -> trim s = [].
Proof. intros H. unfold trim. now rewrite (trim_start_blank s H). Qed.

Lemma trim_nonempty_truthy (s : jsstring) : trim s <> [] -> truthy (VString s) = true.
Proof. destruct s; [ intros H; now elim H | reflexivity ]. Qed.

Lemma last_n_app {A} (n : nat) (older recent : list A) :
  List.length recent = n -> last_n n (older ++ recent) = recent.
Proof.
  intros H. unfold last_n. rewrite length_app, H.
  replace (List.length older + n - n) with (List.length older + 0) by lia.
  rewrite skipn_app, Nat.add_0_r, skipn_all.
  replace (List.length older - List.length older) with 0 by lia. reflexivity.
Qed.

Lemma last_n_short {A} (n : nat) (l : list A) : List.length l <= n -> last_n n l = l.
Proof. intros H. unfold last_n. now replace (List.length l - n) with 0 by lia. Qed.

Lemma last_n_length {A} (n : nat) (l : list A) : List.length (last_n n l) <= n.
Proof. unfold last_n. rewrite length_skipn. lia. Qed.

Lemma get_prop_readable (v : value) (name : jsstring) :
  is_nullish v = false -> get_prop v name = Normal (field v name).
Proof. destruct v; simpl; intros H; try discriminate; reflexivity. Qed.

Lemma get_prop_normal (v : value) (name : jsstring) (x : value) :
  get_prop v name = Normal x -> is_nullish v = false.
Proof. destruct v; simpl; intros H; try discriminate; reflexivity. Qed.

(** ** The history loop *)

(** One turn of the loop: a [null] or [undefined] entry throws, an entry
    with a falsy field is skipped, any other entry is pushed. *)
Lemma for_of_history_cons (chat : value) (rest contents : list value) :
  for_of_history (chat :: rest) contents =
  if is_nullish chat then (Abrupt TypeError, [])
  else if retained chat
       then for_of_history rest (contents ++ [turn_content chat])
       else for_of_history rest contents.
Proof.
  destruct (is_nullish chat) eqn:Hn.
  - destruct chat; try discriminate; reflexivity.
  - cbn [for_of_history]. unfold retained, turn_content, content_entry, role_of.
    rewrite !(get_prop_readable _ _ Hn), bind_normal.
    destruct (truthy (field chat (str "sender"))) eqn:Hs; cbn [andb].
    + rewrite bind_normal.
      destruct (truthy (field chat (str "message"))).
      * now rewrite !bind_normal.
      * reflexivity.
    + now rewrite bind_ret, Hs.
Qed.

(** Over readable entries the loop is a filter followed by a map. *)
Lemma for_of_history_readable (window contents : list value) :
  readable window ->
  for_of_history window contents =
  ret (contents ++ map turn_content (filter retained window)).
Proof.
  intros H; revert contents.
  induction H as [ | chat rest Hn _ IH]; intros contents.
  - cbn. now rewrite app_nil_r.
  - rewrite for_of_history_cons, Hn. cbn [filter].
    destruct (retained chat); rewrite IH; [ | reflexivity ].
    cbn [map]. now rewrite <- app_assoc.
Qed.

(** A skipped entry leaves no mark, whatever surrounds it. *)
Lemma for_of_history_skip (before after contents : list value) (chat : value) :
  is_nullish chat = false -> retained chat = false ->
  for_of_history (before ++ chat :: after) contents =
  for_of_history (before ++ after) contents.
Proof.
  intros Hn Hr; revert contents.
  induction before as [ | c before IH]; intros contents; cbn [app].
  - now rewrite for_of_history_cons, Hn, Hr.
  - rewrite !for_of_history_cons.
    destruct (is_nullish c); [ reflexivity | ].
    destruct (retained c); apply IH.
Qed.

(** ** From the call to the request *)

Lemma await_fetch_bind {B} (req : Fetch.Request) (k : Fetch.Response -> M B) :
  bind (await_fetch req) k =
  (fst (bind (lift (fetch req)) k), EFetch req :: snd (bind (lift (fetch req)) k)).
Proof. unfold await_fetch. now rewrite bind_assoc, bind_emit. Qed.

(** With a key, a sendable message and readable entries in the window, the
    handler is: send the request the spec describes, interpret the answer. *)
Lemma handleGeminiChat_sends (message env key : value) (history : list value) :
  configured env key -> sendable message -> readable (last_n 10 history) ->
  handleGeminiChat message (VArray history) env =
  try_catch
    (response <- await_fetch
       (request_for (model_name env) key
          (contents_for (last_n 10 history) message)) ;;
     interpret_response response)
    on_error.
Proof.
  intros [Hkey Htruthy] (s & -> & Hs) Hread.
  unfold handleGeminiChat.
  rewrite Hkey, bind_normal.
  rewrite (get_prop_readable _ _ (get_prop_normal _ _ _ Hkey)), bind_normal.
  rewrite Htruthy, (trim_nonempty_truthy s Hs). cbn [negb call_trim].
  rewrite bind_assoc, bind_normal, bind_ret.
  destruct (str_eqb (trim s) (str "")) eqn:He.
  { apply str_eqb_eq in He. now elim Hs. }
  cbn [call_slice_neg]. rewrite bind_normal. cbn [iterate]. rewrite bind_normal.
  rewrite (for_of_history_readable _ [] Hread), bind_ret.
  reflexivity.
Qed.

(** ** Validation *)

(** C4, in general: any falsy key ([undefined], [""], [null], [0], ...) stops
    the handler at line 18, before the message or the history is looked at. *)
Lemma handleGeminiChat_falsy_key (message chatHistory env key : value) :
  get_prop env (str "GEMINI_API_KEY") = Normal key -> truthy key = false ->
  handleGeminiChat message chatHistory env =
  (Normal (failure 500 "API key not configured"), []).
Proof.
  intros Hkey Hfalsy. unfold handleGeminiChat.
  rewrite Hkey, bind_normal.
  rewrite (get_prop_readable _ _ (get_prop_normal _ _ _ Hkey)), bind_normal.
  rewrite Hfalsy. reflexivity.
Qed.

(** C4. When [env.GEMINI_API_KEY] is absent ([undefined]) or the empty
    string, the handler returns
    [{success:false, statusCode:500, error:"API key not configured"}] and its
    trace is empty: no request is sent.  The message plays no part, so the
    check also wins over a missing or empty message. *)
Theorem C4_missing_api_key (message chatHistory env key : value) :
  get_prop env (str "GEMINI_API_KEY") = Normal key ->
  key = VUndefined \/ key = VString (str "") ->
  handleGeminiChat message chatHistory env =
    (Normal {| success := false;
               statusCode := 500;
               reply := None;
               error := Some (str "API key not configured") |}, [])
  /\ fetches (trace (handleGeminiChat message chatHistory env)) = [].
Proof.
  intros Hkey Hempty.
  assert (Hfalsy : truthy key = false) by (destruct Hempty; subst; reflexivity).
  rewrite (handleGeminiChat_falsy_key message chatHistory env key Hkey Hfalsy).
  split; reflexivity.
Qed.

(** C3. With a key configured, a message that is absent, empty or made of
    whitespace only gives
    [{success:false, statusCode:400, error:"Message is required"}], and the
    trace is empty: no request is sent. *)
Theorem C3_blank_message (message chatHistory env key : value) :
  configured env key -> blank message ->
  handleGeminiChat message chatHistory env =
    (Normal {| success := false;
               statusCode := 400;
               reply := None;
               error := Some (str "Message is required") |}, [])
  /\ fetches (trace (handleGeminiChat message chatHistory env)) = [].
Proof.
  intros [Hkey Htruthy] Hblank.
  assert (E : handleGeminiChat message chatHistory env =
              (Normal (failure 400 "Message is required"), [])).
  { unfold handleGeminiChat.
    rewrite Hkey, bind_normal.
    rewrite (get_prop_readable _ _ (get_prop_normal _ _ _ Hkey)), bind_normal.
    rewrite Htruthy. cbn [negb].
    destruct Hblank as [-> | [-> | (s & -> & Hws)]]; try reflexivity.
    destruct s as [ | c s]; [ reflexivity | ].
    cbn [truthy negb call_trim].
    rewrite bind_assoc, bind_normal, bind_ret, (trim_blank _ Hws).
    reflexivity. }
  rewrite E. split; reflexivity.
Qed.

(** ** The window over the history *)

(** An absent history is the empty one. *)
Lemma handleGeminiChat_default (message env : value) :
  handleGeminiChat message VUndefined env =
  handleGeminiChat message (VArray []) env.
Proof. reflexivity. Qed.

(** Only the last ten entries are read. *)
Lemma handleGeminiChat_window (message env : value) (history : list value) :
  handleGeminiChat message (VArray history) env =
  handleGeminiChat message (VArray (last_n 10 history)) env.
Proof.
  unfold handleGeminiChat. cbn [call_slice_neg].
  now rewrite (last_n_short 10 (last_n 10 history) (last_n_length 10 history)).
Qed.

(** ** One request at most *)

Lemma fetches_app (t1 t2 : list event) :
  fetches (t1 ++ t2) = fetches t1 ++ fetches t2.
Proof.
  induction t1 as [ | [req | args] t1 IH]; cbn; [ reflexivity | | exact IH ].
  now rewrite IH.
Qed.

Lemma silent_lift {A} (c : completion A) : silent (lift c).
Proof. reflexivity. Qed.

Lemma silent_ret {A} (a : A) : silent (ret a).
Proof. reflexivity. Qed.

Lemma silent_console (args : list log_arg) : silent (console_error args).
Proof. reflexivity. Qed.

Lemma silent_bind {A B} (m : M A) (k : A -> M B) :
  silent m -> (forall a, silent (k a)) -> silent (bind m k).
Proof.
  unfold silent, trace. destruct m as [[a | e] t]; cbn; intros Hm Hk; [ | exact Hm ].
  specialize (Hk a). destruct (k a) as [c t']. cbn in *.
  now rewrite fetches_app, Hm, Hk.
Qed.

Lemma silent_try_catch {A} (m : M A) (handler : exn -> M A) :
  silent m -> (forall e, silent (handler e)) -> silent (try_catch m handler).
Proof.
  unfold silent, trace. destruct m as [[a | e] t]; cbn; intros Hm Hh; [ exact Hm | ].
  specialize (Hh e). destruct (handler e) as [c t']. cbn in *.
  now rewrite fetches_app, Hm, Hh.
Qed.

Ltac silence :=
  repeat match goal with
  | |- silent (lift _) => apply silent_lift
  | |- silent (ret _) => apply silent_ret
  | |- silent (console_error _) => apply silent_console
  | |- silent (bind _ _) => apply silent_bind; [ | intros ]
  | |- silent (if ?b then _ else _) => destruct b
  end.

Lemma extract_reply_silent (result : value) : silent (extract_reply result).
Proof. unfold extract_reply. silence. Qed.

Lemma interpret_response_silent (response : Fetch.Response) :
  silent (interpret_response response).
Proof. unfold interpret_response. silence. apply extract_reply_silent. Qed.

Lemma on_error_silent (error : exn) : silent (on_error error).
Proof. unfold on_error. silence. Qed.

Lemma try_catch_emit {A} (ev : event) (k : unit -> M A) (handler : exn -> M A) :
  try_catch (bind (emit ev) k) handler =
  (outcome (try_catch (k tt) handler), ev :: trace (try_catch (k tt) handler)).
Proof.
  unfold bind, emit, try_catch, outcome, trace.
  destruct (k tt) as [[a | e] t]; cbn; [ reflexivity | ].
  destruct (handler e); reflexivity.
Qed.

(** Once the request is out, it is the only one. *)
Lemma fetches_after_request (req : Fetch.Request) :
  fetches (trace (try_catch (response <- await_fetch req ;;
                             interpret_response response) on_error)) = [req].
Proof.
  unfold await_fetch. rewrite bind_assoc, try_catch_emit.
  unfold trace at 1. cbn [snd fetches]. f_equal.
  apply silent_try_catch; [ | apply on_error_silent ].
  silence. apply interpret_response_silent.
Qed.

(** The request of a run that passes validation. *)
Lemma handleGeminiChat_fetches (message env key : value) (history : list value) :
  configured env key -> sendable message -> readable (last_n 10 history) ->
  fetches (trace (handleGeminiChat message (VArray history) env)) =
  [request_for (model_name env) key (contents_for (last_n 10 history) message)].
Proof.
  intros Hc Hm Hr.
  rewrite (handleGeminiChat_sends message env key history Hc Hm Hr).
  apply fetches_after_request.
Qed.

(** C5. The run on a history of more than ten entries is the run on its last
    ten: result and trace are equal, so nothing of the older entries reaches
    the request.  When the run passes validation, the one request it sends
    carries the contents built from those ten entries. *)
Theorem C5_only_last_ten (message env : value) (older recent : list value) :
  List.length recent = 10 ->
  handleGeminiChat message (VArray (older ++ recent)) env =
    handleGeminiChat message (VArray recent) env
  /\ forall key,
       configured env key -> sendable message -> readable recent ->
       fetches (trace (handleGeminiChat message (VArray (older ++ recent)) env)) =
       [request_for (model_name env) key (contents_for recent message)].
Proof.
  intros Hlen.
  assert (E : handleGeminiChat message (VArray (older ++ recent)) env =
              handleGeminiChat message (VArray recent) env).
  { rewrite handleGeminiChat_window. now rewrite (last_n_app 10 older recent Hlen). }
  split; [ exact E | ].
  intros key Hc Hm Hr. rewrite E.
  rewrite <- (last_n_short 10 recent) in Hr by lia.
  rewrite (handleGeminiChat_fetches message env key recent Hc Hm Hr).
  now rewrite (last_n_short 10 recent) by lia.
Qed.

(** ** Entries that are skipped *)

(** The history reaches the result through the loop over its window only. *)
Lemma handleGeminiChat_history (message env : value) (h1 h2 : list value) :
  for_of_history (last_n 10 h1) [] = for_of_history (last_n 10 h2) [] ->
  handleGeminiChat message (VArray h1) env =
  handleGeminiChat message (VArray h2) env.
Proof.
  intros Hloop. unfold handleGeminiChat.
  destruct (get_prop env (str "GEMINI_API_KEY")) as [key | e];
    [ rewrite !bind_normal | reflexivity ].
  destruct (get_prop env (str "GEMINI_MODEL_NAME")) as [name | e];
    [ rewrite !bind_normal | reflexivity ].
  destruct (negb (truthy key)); [ reflexivity | ].
  destruct (negb (truthy message)).
  { now rewrite !bind_ret. }
  destruct (call_trim message) as [trimmed | e];
    [ rewrite !bind_assoc, !bind_normal, !bind_ret | reflexivity ].
  destruct (str_eqb trimmed (str "")); [ reflexivity | ].
  cbn [call_slice_neg]. rewrite !bind_normal. cbn [iterate].
  rewrite !bind_normal. now rewrite Hloop.
Qed.

Lemma lacks_field (chat : value) (name : jsstring) :
  lacks chat name -> is_nullish chat = false /\ field chat name = VUndefined.
Proof. intros (props & -> & H). unfold field. cbn. now rewrite H. Qed.

Lemma has_empty_field (chat : value) (name : jsstring) :
  has_empty chat name -> is_nullish chat = false /\ field chat name = VString (str "").
Proof. intros (props & -> & H). unfold field. cbn. now rewrite H. Qed.

Lemma retained_falsy (chat : value) :
  truthy (field chat (str "sender")) = false \/
  truthy (field chat (str "message")) = false ->
  retained chat = false.
Proof.
  unfold retained. intros [H | H]; rewrite H; [ reflexivity | apply andb_false_r ].
Qed.

Lemma lacks_not_retained (chat : value) :
  lacks chat (str "sender") \/ lacks chat (str "message") ->
  is_nullish chat = false /\ retained chat = false.
Proof.
  intros [H | H]; destruct (lacks_field _ _ H) as [Hn Hf];
    (split; [ exact Hn | ]); apply retained_falsy; rewrite Hf; auto.
Qed.

Lemma has_empty_not_retained (chat : value) :
  has_empty chat (str "sender") \/ has_empty chat (str "message") ->
  is_nullish chat = false /\ retained chat = false.
Proof.
  intros [H | H]; destruct (has_empty_field _ _ H) as [Hn Hf];
    (split; [ exact Hn | ]); apply retained_falsy; rewrite Hf; auto.
Qed.

(** Inside the window, a skipped entry can be taken out of the history. *)
Lemma handleGeminiChat_skip (message env chat : value) (before after : list value) :
  is_nullish chat = false -> retained chat = false ->
  List.length before + List.length after < 10 ->
  handleGeminiChat message (VArray (before ++ chat :: after)) env =
  handleGeminiChat message (VArray (before ++ after)) env.
Proof.
  intros Hn Hr Hlen. apply handleGeminiChat_history.
  rewrite !last_n_short.
  - now apply for_of_history_skip.
  - rewrite length_app. lia.
  - rewrite length_app. cbn. lia.
Qed.

(** ** The payload *)





(** C10. Within the window, an entry whose [sender] or [message] is the empty
    string and an entry that misses one of the two fields are treated
    alike: the run is the run on the history without the entry. *)
Theorem C10_empty_string_like_missing
    (message env with_empty with_missing : value) (before after : list value) :
  has_empty with_empty (str "sender") \/ has_empty with_empty (str "message") ->
  lacks with_missing (str "sender") \/ lacks with_missing (str "message") ->
  List.length before + List.length after < 10 ->
  retained with_empty = false
  /\ handleGeminiChat message (VArray (before ++ with_empty :: after)) env =
     handleGeminiChat message (VArray (before ++ after)) env
  /\ handleGeminiChat message (VArray (before ++ with_empty :: after)) env =
     handleGeminiChat message (VArray (before ++ with_missing :: after)) env.
Proof.
  intros Hempty Hmissing Hlen.
  destruct (has_empty_not_retained with_empty Hempty) as [Hn1 Hr1].
  destruct (lacks_not_retained with_missing Hmissing) as [Hn2 Hr2].
  split; [ exact Hr1 | ]. split.
  - now apply handleGeminiChat_skip.
  - rewrite !handleGeminiChat_skip by assumption. reflexivity.
Qed.

(** ** The upstream answer *)

Lemma handleGeminiChat_answer
    (message env key : value) (history : list value) (response : Fetch.Response) :
  configured env key -> sendable message -> readable (last_n 10 history) ->
  fetch (request_for (model_name env) key
           (contents_for (last_n 10 history) message)) = Normal response ->
  handleGeminiChat message (VArray history) env =
  (outcome (try_catch (interpret_response response) on_error),
   EFetch (request_for (model_name env) key
             (contents_for (last_n 10 history) message))
   :: trace (try_catch (interpret_response response) on_error)).
Proof.
  intros Hc Hm Hr Hfetch.
  rewrite (handleGeminiChat_sends message env key history Hc Hm Hr).
  unfold await_fetch. rewrite bind_assoc, try_catch_emit, Hfetch.
  now rewrite bind_normal.
Qed.

(** C9. When the upstream status is outside 200-299, whatever the status and
    the body, the result is
    [{success:false, statusCode:500, error:"AI service unavailable"}]: the
    upstream status appears in the log line only. *)
Theorem C9_upstream_failure_normalised
    (message env key : value) (history : list value)
    (response : Fetch.Response) (body : jsstring) :
  configured env key -> sendable message -> readable (last_n 10 history) ->
  fetch (request_for (model_name env) key
           (contents_for (last_n 10 history) message)) = Normal response ->
  (Fetch.status response < 200 \/ 299 < Fetch.status response)%Z ->
  Fetch.text response = Normal body ->
  handleGeminiChat message (VArray history) env =
  (Normal {| success := false;
             statusCode := 500;
             reply := None;
             error := Some (str "AI service unavailable") |},
   [EFetch (request_for (model_name env) key
              (contents_for (last_n 10 history) message));
    EConsoleError [LStr (str "Gemini API error:");
                   LNum (Fetch.status response);
                   LStr body]]).
Proof.
  intros Hc Hm Hr Hfetch Hstatus Htext.
  rewrite (handleGeminiChat_answer message env key history response Hc Hm Hr Hfetch).
  assert (Hok : Fetch.ok response = false).
  { unfold Fetch.ok. apply andb_false_iff. destruct Hstatus; [ left | right ]; lia. }
  unfold interpret_response. rewrite Hok, Htext. reflexivity.
Qed.

(** ** The HTTP response *)

(** C8. For every result, [createResponse] keeps the status code, sets the
    same four headers, and serialises [{reply: result.reply}] when
    [result.success] holds and [{error: result.error}] otherwise. *)
Theorem C8_createResponse (result : RelayResult) :
  Http.headers (createResponse result) =
    [(str "Access-Control-Allow-Origin", str "*");
     (str "Access-Control-Allow-Headers", str "Content-Type");
     (str "Access-Control-Allow-Methods", str "POST, OPTIONS");
     (str "Content-Type", str "application/json")]
  /\ Http.statusCode (createResponse result) = statusCode result
  /\ Http.body (createResponse result) =
       JSON_stringify
         (if success result
          then VObject [(str "reply", read_reply result)]
          else VObject [(str "error", read_error result)]).
Proof. unfold createResponse. destruct (success result); repeat split. Qed.

(** ** The success-status path *)

Lemma truthy_readable (v : value) : truthy v = true -> is_nullish v = false.
Proof. destruct v; cbn; intros H; try discriminate; reflexivity. Qed.

Lemma get_index0_readable (v : value) :
  is_nullish v = false -> get_index0 v = Normal (index0 v).
Proof.
  destruct v as [ | | b | x | [ | c s] | elems | props]; cbn; intros H;
    try discriminate; reflexivity.
Qed.

Lemma get_prop_nullish (v : value) (name : jsstring) :
  is_nullish v = true -> get_prop v name = Abrupt TypeError.
Proof. destruct v; cbn; intros H; try discriminate; reflexivity. Qed.

Lemma get_index0_nullish (v : value) :
  is_nullish v = true -> get_index0 v = Abrupt TypeError.
Proof. destruct v; cbn; intros H; try discriminate; reflexivity. Qed.

(** What lines 92-110 do with a parsed body other than [null]: the condition
    stops at [content]; below it, a missing [parts] or [parts[0]] throws, and
    whatever [parts[0].text] reads as becomes the reply. *)
Lemma extract_reply_spec (result : value) :
  is_nullish result = false ->
  extract_reply result =
  if has_content result then
    let parts := field (first_content result) (str "parts") in
    if is_nullish parts || is_nullish (index0 parts)
    then (Abrupt TypeError, [])
    else ret {| success := true;
                statusCode := 200;
                reply := Some (field (index0 parts) (str "text"));
                error := None |}
  else ret (failure 500 "Invalid AI response").
Proof.
  intros Hres. unfold extract_reply, has_content, first_content, first_candidate.
  rewrite !(get_prop_readable _ _ Hres), bind_normal.
  destruct (truthy (field result (str "candidates"))) eqn:Hc; cbn [andb].
  2:{ now rewrite bind_ret, Hc. }
  rewrite !(get_index0_readable _ (truthy_readable _ Hc)), bind_assoc, bind_normal.
  destruct (truthy (index0 (field result (str "candidates")))) eqn:Hf; cbn [andb].
  2:{ now rewrite bind_ret, Hf. }
  rewrite !(get_prop_readable _ _ (truthy_readable _ Hf)), bind_normal.
  destruct (truthy (field (index0 (field result (str "candidates")))
                      (str "content"))) eqn:Hk; [ | reflexivity ].
  rewrite !bind_normal.
  rewrite (get_index0_readable _ (truthy_readable _ Hc)), bind_normal.
  rewrite (get_prop_readable _ _ (truthy_readable _ Hf)), bind_normal.
  rewrite (get_prop_readable _ _ (truthy_readable _ Hk)), bind_normal.
  cbv zeta.
  destruct (is_nullish (field (field (index0 (field result (str "candidates")))
                                 (str "content")) (str "parts"))) eqn:Hp; cbn [orb].
  { now rewrite (get_index0_nullish _ Hp). }
  rewrite (get_index0_readable _ Hp), bind_normal.
  destruct (is_nullish (index0 (field (field (index0 (field result (str "candidates")))
                                 (str "content")) (str "parts")))) eqn:Hq.
  { now rewrite (get_prop_nullish _ _ Hq). }
  now rewrite (get_prop_readable _ _ Hq), bind_normal.
Qed.

(** A body without a non-empty [candidates], or whose first candidate has no
    [content], is reported as invalid. *)
Lemma extract_reply_invalid (result : value) :
  is_nullish result = false -> has_content result = false ->
  extract_reply result = ret (failure 500 "Invalid AI response").
Proof. intros Hres H. now rewrite (extract_reply_spec _ Hres), H. Qed.

(** ** The shape of every result *)

Lemma yields_ret (P : RelayResult -> Prop) (r : RelayResult) : P r -> yields P (ret r).
Proof. exact (fun H => H). Qed.

Lemma yields_bind {A} (P : RelayResult -> Prop) (m : M A) (k : A -> M RelayResult) :
  (forall a, yields P (k a)) -> yields P (bind m k).
Proof.
  unfold yields, outcome. intros Hk. destruct m as [[a | e] t]; cbn; [ | exact I ].
  specialize (Hk a). now destruct (k a).
Qed.

Lemma yields_try_catch (P : RelayResult -> Prop)
    (m : M RelayResult) (handler : exn -> M RelayResult) :
  yields P m ->
  (forall e, exists r, outcome (handler e) = Normal r /\ P r) ->
  exists r, outcome (try_catch m handler) = Normal r /\ P r.
Proof.
  unfold yields, outcome. intros Hm Hh. destruct m as [[r | e] t]; cbn in *.
  - now exists r.
  - destruct (Hh e) as (r & Hr & HP). destruct (handler e). cbn in *. now exists r.
Qed.

Ltac one_key_literal :=
  cbv [one_key success reply error statusCode];
  repeat split; eauto.

Ltac step_yields :=
  repeat match goal with
  | |- yields _ (ret _) => apply yields_ret; one_key_literal
  | |- yields _ (if ?b then _ else _) => destruct b
  | |- yields _ (bind _ _) => apply yields_bind; intros
  | |- yields _ (interpret_response _) => unfold interpret_response
  | |- yields _ (extract_reply _) => unfold extract_reply
  end.

(** Nothing escapes the handler: whatever the inputs and whatever the
    network does, it returns an object, and the object has one of the two
    shapes. *)
Lemma handleGeminiChat_returns (message chatHistory env : value) :
  exists r, outcome (handleGeminiChat message chatHistory env) = Normal r /\ one_key r.
Proof.
  unfold handleGeminiChat. apply yields_try_catch.
  - step_yields.
  - intros e. eexists. split; [ reflexivity | one_key_literal ].
Qed.

(** A failure always carries its message. *)
Lemma failure_populates_error (r : RelayResult) :
  one_key r -> success r = false ->
  populated (read_error r) = true /\ populated (read_reply r) = false.
Proof.
  unfold one_key, read_error, read_reply. intros H Hs. rewrite Hs in H.
  destruct H as (-> & (s & ->) & _). split; reflexivity.
Qed.

(** A success status with a readable candidate text: the reply is that text
    and nothing is logged. *)
Lemma handleGeminiChat_reply
    (message env key result : value) (history : list value)
    (response : Fetch.Response) :
  configured env key -> sendable message -> readable (last_n 10 history) ->
  fetch (request_for (model_name env) key
           (contents_for (last_n 10 history) message)) = Normal response ->
  Fetch.ok response = true ->
  Fetch.json response = Normal result ->
  is_nullish result = false -> has_content result = true ->
  is_nullish (field (first_content result) (str "parts")) = false ->
  is_nullish (index0 (field (first_content result) (str "parts"))) = false ->
  handleGeminiChat message (VArray history) env =
  (Normal {| success := true;
             statusCode := 200;
             reply := Some (field (index0 (field (first_content result) (str "parts")))
                              (str "text"));
             error := None |},
   [EFetch (request_for (model_name env) key
              (contents_for (last_n 10 history) message))]).
Proof.
  intros Hc Hm Hr Hfetch Hok Hjson Hres Hcontent Hparts Hpart.
  rewrite (handleGeminiChat_answer message env key history response Hc Hm Hr Hfetch).
  unfold interpret_response. rewrite Hok, Hjson. cbn [negb].
  rewrite bind_normal, (extract_reply_spec _ Hres), Hcontent.
  cbv zeta. rewrite Hparts, Hpart. reflexivity.
Qed.

(** A success status with no candidate content: the body is reported as
    invalid. *)
Lemma handleGeminiChat_invalid
    (message env key result : value) (history : list value)
    (response : Fetch.Response) :
  configured env key -> sendable message -> readable (last_n 10 history) ->
  fetch (request_for (model_name env) key
           (contents_for (last_n 10 history) message)) = Normal response ->
  Fetch.ok response = true ->
  Fetch.json response = Normal result ->
  is_nullish result = false -> has_content result = false ->
  handleGeminiChat message (VArray history) env =
  (Normal (failure 500 "Invalid AI response"),
   [EFetch (request_for (model_name env) key
              (contents_for (last_n 10 history) message))]).
Proof.
  intros Hc Hm Hr Hfetch Hok Hjson Hres Hcontent.
  rewrite (handleGeminiChat_answer message env key history response Hc Hm Hr Hfetch).
  unfold interpret_response. rewrite Hok, Hjson. cbn [negb].
  now rewrite bind_normal, (extract_reply_invalid _ Hres Hcontent).
Qed.


(** ** Failures the [catch] block absorbs *)

Lemma on_error_run (e : exn) :
  on_error e = (Normal (failure 500 "Internal server error"), caught e).
Proof. reflexivity. Qed.

(** X1. Without an environment object ([env] is [null] or [undefined]) the
    read of [env.GEMINI_API_KEY] throws inside the [try]: the result is
    ["Internal server error"], not ["API key not configured"], for every
    message and history, and nothing is sent. *)
Theorem X1_missing_env (message chatHistory env : value) :
  is_nullish env = true ->
  handleGeminiChat message chatHistory env =
  (Normal {| success := false;
             statusCode := 500;
             reply := None;
             error := Some (str "Internal server error") |},
   [EConsoleError [LStr (str "Chat handler error:"); LExn TypeError]]).
Proof.
  intros Hn. unfold handleGeminiChat.
  now rewrite (get_prop_nullish _ _ Hn).
Qed.

(** X2. With a key configured, a truthy message that is not a string (a
    number, [true], an array, an object) has no [trim] to call: line 27
    throws, and the result is 500 ["Internal server error"], not the 400 of
    a missing message.  Nothing is sent. *)
Theorem X2_message_not_a_string (message chatHistory env key : value) :
  configured env key ->
  truthy message = true -> (forall s, message <> VString s) ->
  handleGeminiChat message chatHistory env =
  (Normal {| success := false;
             statusCode := 500;
             reply := None;
             error := Some (str "Internal server error") |},
   [EConsoleError [LStr (str "Chat handler error:"); LExn TypeError]]).
Proof.
  intros [Hkey Htruthy] Hm Hns. unfold handleGeminiChat.
  rewrite Hkey, bind_normal.
  rewrite (get_prop_readable _ _ (get_prop_normal _ _ _ Hkey)), bind_normal.
  rewrite Htruthy, Hm. cbn [negb].
  destruct message; try discriminate; try reflexivity.
  now elim (Hns s).
Qed.

(** The run up to the loop, for any history value. *)
Lemma handleGeminiChat_prepare (message chatHistory env key : value) :
  configured env key -> sendable message -> chatHistory <> VUndefined ->
  handleGeminiChat message chatHistory env =
  try_catch
    (contents <- prepare chatHistory ;;
     response <- await_fetch
       (request_for (model_name env) key
          (contents ++ [content_entry (str "user") message])) ;;
     interpret_response response)
    on_error.
Proof.
  intros [Hkey Htruthy] (s & -> & Hs) Hdef.
  unfold handleGeminiChat.
  rewrite Hkey, bind_normal.
  rewrite (get_prop_readable _ _ (get_prop_normal _ _ _ Hkey)), bind_normal.
  rewrite Htruthy, (trim_nonempty_truthy s Hs). cbn [negb call_trim].
  rewrite bind_assoc, bind_normal, bind_ret.
  destruct (str_eqb (trim s) (str "")) eqn:He.
  { apply str_eqb_eq in He. now elim Hs. }
  unfold prepare. rewrite !bind_assoc.
  destruct chatHistory; try reflexivity; try (now elim Hdef);
    cbn [call_slice_neg]; rewrite !bind_normal; cbn [iterate];
    now rewrite bind_assoc, !bind_normal.
Qed.

(** X3. With key and message in order, a history that is neither an array
    nor a string ([null], a number, a boolean, an object) has no [slice]:
    line 39 throws and the result is ["Internal server error"].  Nothing is
    sent. *)
Theorem X3_history_not_a_sequence (message chatHistory env key : value) :
  configured env key -> sendable message ->
  chatHistory <> VUndefined ->
  (forall entries, chatHistory <> VArray entries) ->
  (forall s, chatHistory <> VString s) ->
  handleGeminiChat message chatHistory env =
  (Normal {| success := false;
             statusCode := 500;
             reply := None;
             error := Some (str "Internal server error") |},
   [EConsoleError [LStr (str "Chat handler error:"); LExn TypeError]]).
Proof.
  intros Hc Hm Hdef Harr Hstr.
  rewrite (handleGeminiChat_prepare message chatHistory env key Hc Hm Hdef).
  destruct chatHistory; try reflexivity.
  - now elim (Hstr s).
  - now elim (Harr elems).
Qed.

Lemma for_of_history_strings (l : list jsstring) (contents : list value) :
  for_of_history (map VString l) contents = ret contents.
Proof.
  induction l as [ | s l IH]; [ reflexivity | ].
  cbn [map]. now rewrite for_of_history_cons.
Qed.

(** X4. A history that is a string is read as no history at all: its
    characters have neither [sender] nor [message], so the run is the run
    on the empty array. *)
Theorem X4_string_history_is_empty (message env : value) (s : jsstring) :
  handleGeminiChat message (VString s) env =
  handleGeminiChat message (VArray []) env.
Proof.
  unfold handleGeminiChat.
  destruct (get_prop env (str "GEMINI_API_KEY")) as [key | e];
    [ rewrite !bind_normal | reflexivity ].
  destruct (get_prop env (str "GEMINI_MODEL_NAME")) as [name | e];
    [ rewrite !bind_normal | reflexivity ].
  destruct (negb (truthy key)); [ reflexivity | ].
  destruct (negb (truthy message)).
  { now rewrite !bind_ret. }
  destruct (call_trim message) as [trimmed | e];
    [ rewrite !bind_assoc, !bind_normal, !bind_ret | reflexivity ].
  destruct (str_eqb trimmed (str "")); [ reflexivity | ].
  cbn [call_slice_neg]. rewrite !bind_normal. cbn [iterate].
  rewrite !bind_normal. now rewrite for_of_history_strings.
Qed.

Lemma for_of_history_throws (before after contents : list value) (chat : value) :
  readable before -> is_nullish chat = true ->
  for_of_history (before ++ chat :: after) contents = (Abrupt TypeError, []).
Proof.
  intros Hr Hn; revert contents.
  induction Hr as [ | c before Hc _ IH]; intros contents; cbn [app];
    rewrite for_of_history_cons.
  - now rewrite Hn.
  - rewrite Hc. destruct (retained c); apply IH.
Qed.

(** X5. A [null] or [undefined] entry among the last ten of the history
    makes the read of [chat.sender] throw: the whole request is given up
    with ["Internal server error"], and nothing is sent, whatever the other
    entries are. *)
Theorem X5_null_entry_in_window
    (message env key chat : value) (history before after : list value) :
  configured env key -> sendable message ->
  last_n 10 history = before ++ chat :: after ->
  readable before -> is_nullish chat = true ->
  handleGeminiChat message (VArray history) env =
  (Normal {| success := false;
             statusCode := 500;
             reply := None;
             error := Some (str "Internal server error") |},
   [EConsoleError [LStr (str "Chat handler error:"); LExn TypeError]]).
Proof.
  intros Hc Hm Hwin Hr Hn.
  rewrite (handleGeminiChat_prepare message (VArray history) env key Hc Hm)
    by discriminate.
  unfold prepare. cbn [call_slice_neg]. rewrite bind_normal. cbn [iterate].
  rewrite bind_normal, Hwin, (for_of_history_throws before after [] chat Hr Hn).
  reflexivity.
Qed.

(** X6. When [fetch] itself rejects (no network, no DNS, a refused
    connection), the request was sent once, the cause is logged, and the
    result is ["Internal server error"]. *)
Theorem X6_network_failure
    (message env key : value) (history : list value) (e : exn) :
  configured env key -> sendable message -> readable (last_n 10 history) ->
  fetch (request_for (model_name env) key
           (contents_for (last_n 10 history) message)) = Abrupt e ->
  handleGeminiChat message (VArray history) env =
  (Normal {| success := false;
             statusCode := 500;
             reply := None;
             error := Some (str "Internal server error") |},
   [EFetch (request_for (model_name env) key
              (contents_for (last_n 10 history) message));
    EConsoleError [LStr (str "Chat handler error:"); LExn e]]).
Proof.
  intros Hc Hm Hr Hfetch.
  rewrite (handleGeminiChat_sends message env key history Hc Hm Hr).
  unfold await_fetch. rewrite bind_assoc, try_catch_emit, Hfetch.
  reflexivity.
Qed.

Lemma ok_in_range (response : Fetch.Response) :
  (200 <= Fetch.status response <= 299)%Z -> Fetch.ok response = true.
Proof. intros H. unfold Fetch.ok. apply andb_true_iff. split; lia. Qed.

(** X7. A 2xx answer whose body is not JSON ([response.json()] rejects) is
    reported as ["Internal server error"], with the parser's error in the
    log; it is not ["Invalid AI response"]. *)
Theorem X7_unparsable_success_body
    (message env key : value) (history : list value)
    (response : Fetch.Response) (e : exn) :
  configured env key -> sendable message -> readable (last_n 10 history) ->
  fetch (request_for (model_name env) key
           (contents_for (last_n 10 history) message)) = Normal response ->
  (200 <= Fetch.status response <= 299)%Z ->
  Fetch.json response = Abrupt e ->
  handleGeminiChat message (VArray history) env =
  (Normal {| success := false;
             statusCode := 500;
             reply := None;
             error := Some (str "Internal server error") |},
   [EFetch (request_for (model_name env) key
              (contents_for (last_n 10 history) message));
    EConsoleError [LStr (str "Chat handler error:"); LExn e]]).
Proof.
  intros Hc Hm Hr Hfetch Hstatus Hjson.
  rewrite (handleGeminiChat_answer message env key history response Hc Hm Hr Hfetch).
  unfold interpret_response. rewrite (ok_in_range _ Hstatus), Hjson.
  reflexivity.
Qed.

(** X8. A non-2xx answer whose body cannot be read ([response.text()]
    rejects) never reaches line 77: the upstream status is not logged, and
    the result is ["Internal server error"] in place of
    ["AI service unavailable"]. *)
Theorem X8_unreadable_failure_body
    (message env key : value) (history : list value)
    (response : Fetch.Response) (e : exn) :
  configured env key -> sendable message -> readable (last_n 10 history) ->
  fetch (request_for (model_name env) key
           (contents_for (last_n 10 history) message)) = Normal response ->
  (Fetch.status response < 200 \/ 299 < Fetch.status response)%Z ->
  Fetch.text response = Abrupt e ->
  handleGeminiChat message (VArray history) env =
  (Normal {| success := false;
             statusCode := 500;
             reply := None;
             error := Some (str "Internal server error") |},
   [EFetch (request_for (model_name env) key
              (contents_for (last_n 10 history) message));
    EConsoleError [LStr (str "Chat handler error:"); LExn e]]).
Proof.
  intros Hc Hm Hr Hfetch Hstatus Htext.
  rewrite (handleGeminiChat_answer message env key history response Hc Hm Hr Hfetch).
  assert (Hok : Fetch.ok response = false).
  { unfold Fetch.ok. apply andb_false_iff. destruct Hstatus; [ left | right ]; lia. }
  unfold interpret_response. rewrite Hok, Htext. reflexivity.
Qed.

(** X9. What a 2xx answer with a parsed body becomes, for every body.  A
    [null] body, or a first candidate whose content has no readable
    [parts[0]], throws and ends as ["Internal server error"] with a log
    line; a body without candidate content is ["Invalid AI response"];
    otherwise the run succeeds with whatever [parts[0].text] holds, of any
    type, and logs nothing. *)
Theorem X9_success_status_paths
    (message env key result : value) (history : list value)
    (response : Fetch.Response) :
  configured env key -> sendable message -> readable (last_n 10 history) ->
  fetch (request_for (model_name env) key
           (contents_for (last_n 10 history) message)) = Normal response ->
  (200 <= Fetch.status response <= 299)%Z ->
  Fetch.json response = Normal result ->
  let sent := EFetch (request_for (model_name env) key
                        (contents_for (last_n 10 history) message)) in
  let parts := field (first_content result) (str "parts") in
  handleGeminiChat message (VArray history) env =
  if is_nullish result then
    (Normal (failure 500 "Internal server error"), sent :: caught TypeError)
  else if has_content result then
    if is_nullish parts || is_nullish (index0 parts) then
      (Normal (failure 500 "Internal server error"), sent :: caught TypeError)
    else
      (Normal {| success := true;
                 statusCode := 200;
                 reply := Some (field (index0 parts) (str "text"));
                 error := None |}, [sent])
  else
    (Normal (failure 500 "Invalid AI response"), [sent]).
Proof.
  intros Hc Hm Hr Hfetch Hstatus Hjson sent parts. subst sent parts.
  rewrite (handleGeminiChat_answer message env key history response Hc Hm Hr Hfetch).
  unfold interpret_response. rewrite (ok_in_range _ Hstatus), Hjson. cbn [negb].
  rewrite bind_normal.
  destruct (is_nullish result) eqn:Hres.
  { unfold extract_reply. now rewrite (get_prop_nullish _ _ Hres). }
  rewrite (extract_reply_spec _ Hres).
  destruct (has_content result); [ | reflexivity ].
  cbv zeta.
  destruct (is_nullish (field (first_content result) (str "parts"))
            || is_nullish (index0 (field (first_content result) (str "parts"))));
    reflexivity.
Qed.

(** ** Every run, by kind *)

Lemma bind_quiet {A B} (Q : M B -> Prop) (m : M A) (k : A -> M B) :
  quiet m -> (forall e, Q (Abrupt e, [])) -> (forall a, Q (k a)) -> Q (bind m k).
Proof.
  unfold quiet, trace. destruct m as [[a | e] t]; cbn; intros -> Hthrow Hk.
  - specialize (Hk a). now destruct (k a).
  - apply Hthrow.
Qed.

Lemma quiet_lift {A} (c : completion A) : quiet (lift c).
Proof. reflexivity. Qed.

Lemma quiet_ret {A} (a : A) : quiet (ret a).
Proof. reflexivity. Qed.

Lemma quiet_bind {A B} (m : M A) (k : A -> M B) :
  quiet m -> (forall a, quiet (k a)) -> quiet (bind m k).
Proof. intros Hm Hk. apply bind_quiet; [ exact Hm | reflexivity | exact Hk ]. Qed.

Ltac hush :=
  repeat match goal with
  | |- quiet (lift _) => apply quiet_lift
  | |- quiet (ret _) => apply quiet_ret
  | |- quiet (bind _ _) => apply quiet_bind; [ | intros ]
  | |- quiet (if ?b then _ else _) => destruct b
  end.

Lemma for_of_history_quiet (window contents : list value) :
  quiet (for_of_history window contents).
Proof.
  revert contents; induction window as [ | chat rest IH]; intros contents.
  - reflexivity.
  - rewrite for_of_history_cons.
    destruct (is_nullish chat); [ reflexivity | ].
    destruct (retained chat); apply IH.
Qed.

Lemma prepare_quiet (chatHistory : value) : quiet (prepare chatHistory).
Proof. unfold prepare. hush. apply for_of_history_quiet. Qed.

Lemma extract_reply_kind (result : value) : answer_kind (extract_reply result).
Proof.
  unfold extract_reply.
  repeat match goal with
  | |- answer_kind (bind _ _) =>
      apply bind_quiet; [ hush | intros; apply AnswerThrew | intros ]
  | |- answer_kind (if ?b then _ else _) => destruct b
  | |- answer_kind (ret _) => apply AnswerExtracted
  end.
  - left. eexists. reflexivity.
  - right. reflexivity.
Qed.

Lemma interpret_response_kind (response : Fetch.Response) :
  answer_kind (interpret_response response).
Proof.
  unfold interpret_response. destruct (negb (Fetch.ok response)).
  - destruct (Fetch.text response) as [body | e].
    + apply AnswerUpstreamFailed.
    + apply AnswerThrew.
  - destruct (Fetch.json response) as [result | e].
    + rewrite bind_normal. apply extract_reply_kind.
    + apply AnswerThrew.
Qed.

Lemma await_fetch_kind (req : Fetch.Request) :
  body_kind (response <- await_fetch req ;; interpret_response response).
Proof.
  rewrite await_fetch_bind.
  destruct (fetch req) as [response | e].
  - rewrite bind_normal.
    destruct (interpret_response_kind response); cbn [fst snd]; now constructor.
  - apply BodyThrewAfterFetch.
Qed.

Lemma try_catch_kind (m : M RelayResult) :
  body_kind m -> run_kind (try_catch m on_error).
Proof. intros H. destruct H; cbn; now constructor. Qed.

(** Whatever the arguments and whatever the network does, a run is of one
    of the six kinds. *)
Lemma handleGeminiChat_kind (message chatHistory env : value) :
  run_kind (handleGeminiChat message chatHistory env).
Proof.
  unfold handleGeminiChat. apply try_catch_kind.
  repeat match goal with
  | |- body_kind (bind (await_fetch _) _) => apply await_fetch_kind
  | |- body_kind (bind (for_of_history _ _) _) =>
      apply bind_quiet;
      [ apply for_of_history_quiet | intros; apply BodyThrew | intros ]
  | |- body_kind (bind _ _) =>
      apply bind_quiet; [ hush | intros; apply BodyThrew | intros ]
  | |- body_kind (if ?b then _ else _) => destruct b
  | |- body_kind (ret _) => first [ apply BodyRefusedKey | apply BodyRefusedMessage ]
  | |- body_kind (let _ := _ in _) => cbv zeta
  end.
Qed.

(** ** Which validation stopped the run *)

Lemma trim_start_empty (s : jsstring) :
  trim_start s = [] -> forallb is_white_space s = true.
Proof.
  induction s as [ | c s IH]; cbn; [ reflexivity | ].
  destruct (is_white_space c); [ exact IH | discriminate ].
Qed.

Lemma trim_start_head (s rest : jsstring) (c : N) :
  trim_start s = c :: rest -> is_white_space c = false.
Proof.
  induction s as [ | d s IH]; cbn; [ discriminate | ].
  destruct (is_white_space d) eqn:E; [ exact IH | ].
  intros [= -> _]. exact E.
Qed.

Lemma trim_empty (s : jsstring) : trim s = [] -> forallb is_white_space s = true.
Proof.
  unfold trim. intros H.
  assert (H1 : trim_start (rev (trim_start s)) = []).
  { destruct (trim_start (rev (trim_start s))) as [ | d l]; [ reflexivity | ].
    cbn in H. apply app_eq_nil in H. now destruct H. }
  apply trim_start_empty in H1.
  destruct (trim_start s) as [ | c rest] eqn:E.
  - now apply trim_start_empty.
  - pose proof (trim_start_head s rest c E) as Hc.
    rewrite forallb_forall in H1.
    rewrite (H1 c) in Hc; [ discriminate | ].
    apply in_rev. rewrite rev_involutive. now left.
Qed.

Lemma handleGeminiChat_unsendable (message chatHistory env key : value) :
  configured env key -> unsendable message ->
  handleGeminiChat message chatHistory env =
  (Normal (failure 400 "Message is required"), []).
Proof.
  intros [Hkey Htruthy] Hun. unfold handleGeminiChat.
  rewrite Hkey, bind_normal.
  rewrite (get_prop_readable _ _ (get_prop_normal _ _ _ Hkey)), bind_normal.
  rewrite Htruthy. cbn [negb].
  destruct Hun as [Hfalsy | (s & -> & Hws)].
  - now rewrite Hfalsy.
  - destruct s as [ | c s]; [ reflexivity | ].
    cbn [truthy negb call_trim].
    rewrite bind_assoc, bind_normal, bind_ret, (trim_blank _ Hws).
    reflexivity.
Qed.

(** The four ways to stop before the history is read, and the one way on. *)
Lemma validation_cases (message chatHistory env : value) :
  (is_nullish env = true
   /\ handleGeminiChat message chatHistory env =
      (Normal (failure 500 "Internal server error"), caught TypeError))
  \/ (is_nullish env = false
      /\ truthy (field env (str "GEMINI_API_KEY")) = false
      /\ handleGeminiChat message chatHistory env =
         (Normal (failure 500 "API key not configured"), []))
  \/ (exists key,
        configured env key /\ unsendable message
        /\ handleGeminiChat message chatHistory env =
           (Normal (failure 400 "Message is required"), []))
  \/ (exists key,
        configured env key /\ truthy message = true
        /\ (forall s, message <> VString s)
        /\ handleGeminiChat message chatHistory env =
           (Normal (failure 500 "Internal server error"), caught TypeError))
  \/ (exists key, configured env key /\ sendable message).
Proof.
  destruct (is_nullish env) eqn:Hn.
  { left. split; [ reflexivity | ].
    unfold handleGeminiChat. now rewrite (get_prop_nullish _ _ Hn). }
  right.
  pose proof (get_prop_readable env (str "GEMINI_API_KEY") Hn) as Hkey.
  destruct (truthy (field env (str "GEMINI_API_KEY"))) eqn:Ht.
  2:{ left. repeat split. now apply (handleGeminiChat_falsy_key _ _ _ _ Hkey). }
  right.
  assert (Hc : configured env (field env (str "GEMINI_API_KEY"))) by now split.
  destruct (truthy message) eqn:Hm.
  2:{ left. eexists. split; [ exact Hc | ]. split; [ now left | ].
      apply (handleGeminiChat_unsendable _ _ _ _ Hc). now left. }
  assert (Hrun : forall other,
             truthy other = true -> call_trim other = Abrupt TypeError ->
             handleGeminiChat other chatHistory env =
             (Normal (failure 500 "Internal server error"), caught TypeError)).
  { intros other Hother Htrim. unfold handleGeminiChat.
    rewrite !(get_prop_readable _ _ Hn), !bind_normal, Ht, Hother. cbn [negb].
    now rewrite Htrim. }
  destruct message as [ | | b | x | s | elems | props ];
    try discriminate;
    try (right; left; eexists; split; [ exact Hc | ];
         split; [ reflexivity | ]; split; [ discriminate | ];
         now apply Hrun).
  destruct (forallb is_white_space s) eqn:Hws.
  - left. eexists. split; [ exact Hc | ].
    assert (Hun : unsendable (VString s)) by (right; now exists s).
    split; [ exact Hun | ]. apply (handleGeminiChat_unsendable _ _ _ _ Hc Hun).
  - right; right. eexists. split; [ exact Hc | ].
    exists s. split; [ reflexivity | ].
    intros Hempty. apply trim_empty in Hempty. congruence.
Qed.

Lemma bind_value {A B} (a : A) (k : A -> M B) : bind (Normal a, []) k = k a.
Proof. exact (bind_normal a k). Qed.

Lemma retained_forwarded (chat : value) :
  retained chat = true -> forwarded (turn_content chat).
Proof.
  unfold retained. intros H. apply andb_true_iff in H as [_ Hmsg].
  exists (role_of (field chat (str "sender"))), (field chat (str "message")).
  split; [ reflexivity | ]. split; [ | exact Hmsg ].
  unfold role_of. destruct (strict_equals_str _ _); auto.
Qed.

Lemma for_of_history_facts (window contents result : list value) :
  outcome (for_of_history window contents) = Normal result ->
  List.length result <= List.length contents + List.length window
  /\ (Forall forwarded contents -> Forall forwarded result).
Proof.
  revert contents; induction window as [ | chat rest IH]; intros contents.
  - cbn. intros [= <-]. split; [ lia | auto ].
  - rewrite for_of_history_cons.
    destruct (is_nullish chat); [ discriminate | ].
    destruct (retained chat) eqn:Hr; intros H; apply IH in H as [Hlen Hfw].
    + rewrite length_app in Hlen. cbn in *. split; [ lia | ].
      intros Hc. apply Hfw. apply Forall_app. split; [ exact Hc | ].
      constructor; [ now apply retained_forwarded | constructor ].
    + cbn. split; [ lia | exact Hfw ].
Qed.

Lemma prepare_facts (chatHistory : value) (contents : list value) :
  outcome (prepare chatHistory) = Normal contents ->
  List.length contents <= 10 /\ Forall forwarded contents.
Proof.
  unfold prepare.
  destruct chatHistory as [ | | b | x | s | elems | props ];
    try discriminate; cbn [call_slice_neg]; rewrite bind_normal;
    cbn [iterate]; rewrite bind_normal.
  - rewrite for_of_history_strings. intros [= <-]. split; [ cbn; lia | constructor ].
  - intros H. apply for_of_history_facts in H as [Hlen Hfw].
    pose proof (last_n_length 10 elems). cbn in Hlen.
    split; [ lia | apply Hfw; constructor ].
Qed.

Lemma handleGeminiChat_sendable_trace (message chatHistory env key : value) :
  configured env key -> sendable message ->
  trace (handleGeminiChat message chatHistory env) <> [].
Proof.
  intros Hc Hm.
  assert (H : forall h, h <> VUndefined ->
                        trace (handleGeminiChat message h env) <> []).
  { intros h Hdef.
    rewrite (handleGeminiChat_prepare message h env key Hc Hm Hdef).
    pose proof (prepare_quiet h) as Hq. unfold quiet, trace in Hq.
    destruct (prepare h) as [[contents | e] t]; cbn in Hq; subst t.
    - rewrite bind_value. unfold await_fetch.
      rewrite bind_assoc, try_catch_emit. discriminate.
    - discriminate. }
  destruct chatHistory; try (apply H; discriminate).
  rewrite handleGeminiChat_default. apply H. discriminate.
Qed.

(** ** What every run has in common *)

(** A call with an argument that can be destructured is the function on
    the three values read off it, so every theorem about those three values
    is a theorem about the call. *)
Lemma handleGeminiChat_call_destructured (params : value) :
  is_nullish params = false ->
  handleGeminiChat_call params =
  handleGeminiChat (field params (str "message"))
    (field params (str "chatHistory")) (field params (str "env")).
Proof.
  intros Hn. unfold handleGeminiChat_call.
  now rewrite !(get_prop_readable _ _ Hn), !bind_normal.
Qed.

(** X10. A call [handleGeminiChat(params)] throws in one case only: when
    [params] is [undefined] or [null], the destructuring of line 12 fails
    before the [try] and before anything is done.  For every other argument
    and every behaviour of the network it returns a result, which is
    either [{success:true, statusCode:200, reply}] or one of five fixed
    failures (four with status 500, ["Message is required"] with 400).  No
    upstream text or exception message reaches the [error] field. *)
Theorem X10_fixed_results (params : value) :
  if is_nullish params then
    handleGeminiChat_call params = (Abrupt TypeError, [])
  else
    exists r,
      outcome (handleGeminiChat_call params) = Normal r
      /\ ((exists v, r = {| success := true; statusCode := 200;
                            reply := Some v; error := None |})
          \/ r = failure 500 "API key not configured"
          \/ r = failure 400 "Message is required"
          \/ r = failure 500 "AI service unavailable"
          \/ r = failure 500 "Invalid AI response"
          \/ r = failure 500 "Internal server error").
Proof.
  destruct (is_nullish params) eqn:Hn; unfold handleGeminiChat_call.
  - now rewrite (get_prop_nullish _ _ Hn).
  - rewrite !(get_prop_readable _ _ Hn), !bind_normal.
    destruct (handleGeminiChat_kind (field params (str "message"))
                (field params (str "chatHistory")) (field params (str "env"))) as
      [ | | e | req r [Hr | Hr] | req status body | req e ];
      eexists; (split; [ reflexivity | ]); auto 10.
Qed.

(** X11. A run sends at most one request and writes at most one log line,
    and a log line never precedes the request: there is no retry and no
    second attempt on any path. *)
Theorem X11_single_shot (message chatHistory env : value) :
  single_shot (trace (handleGeminiChat message chatHistory env))
  /\ List.length (fetches (trace (handleGeminiChat message chatHistory env))) <= 1
  /\ List.length (logs (trace (handleGeminiChat message chatHistory env))) <= 1.
Proof.
  unfold single_shot.
  destruct (handleGeminiChat_kind message chatHistory env);
    unfold caught; cbn; repeat split; try lia; eauto 8.
Qed.

(** X12. A log line is written exactly when the result is
    ["Internal server error"] or ["AI service unavailable"]; successes and
    the three other failures are silent. *)
Theorem X12_logged_failures (message chatHistory env : value) :
  exists r,
    outcome (handleGeminiChat message chatHistory env) = Normal r
    /\ (logs (trace (handleGeminiChat message chatHistory env)) <> [] <->
        r = failure 500 "Internal server error"
        \/ r = failure 500 "AI service unavailable").
Proof.
  destruct (handleGeminiChat_kind message chatHistory env) as
    [ | | e | req r Hr | req status body | req e ];
    eexists; (split; [ reflexivity | ]); cbn [trace snd logs caught];
    try (split; [ intros _; auto | discriminate ]);
    try (split; [ intros H; now elim H | intros [H | H]; vm_compute in H; discriminate H ]).
  split; [ intros H; now elim H | ].
  destruct Hr as [(v & ->) | ->]; intros [H | H]; vm_compute in H; discriminate H.
Qed.

Lemma handleGeminiChat_requests (message chatHistory env key : value) :
  configured env key -> sendable message ->
  fetches (trace (handleGeminiChat message chatHistory env)) = []
  \/ exists contents,
       fetches (trace (handleGeminiChat message chatHistory env)) =
         [request_for (model_name env) key
            (contents ++ [content_entry (str "user") message])]
       /\ List.length contents <= 10 /\ Forall forwarded contents.
Proof.
  intros Hc Hm.
  assert (H : forall h, h <> VUndefined ->
     fetches (trace (handleGeminiChat message h env)) = []
     \/ exists contents,
          fetches (trace (handleGeminiChat message h env)) =
            [request_for (model_name env) key
               (contents ++ [content_entry (str "user") message])]
          /\ List.length contents <= 10 /\ Forall forwarded contents).
  { intros h Hdef.
    rewrite (handleGeminiChat_prepare message h env key Hc Hm Hdef).
    pose proof (prepare_quiet h) as Hq. unfold quiet, trace in Hq.
    pose proof (prepare_facts h) as Hf. unfold outcome in Hf.
    destruct (prepare h) as [[contents | e] t]; cbn in Hq, Hf; subst t.
    - right. exists contents. rewrite bind_value.
      split; [ apply fetches_after_request | now apply Hf ].
    - left. reflexivity. }
  destruct chatHistory; try (apply H; discriminate).
  rewrite handleGeminiChat_default. apply H. discriminate.
Qed.

(** X13. No request leaves without validation.  Whenever a run sends a
    request, the key was configured, the message is a string with
    non-whitespace content, and that request is the only one; its contents
    are at most ten history entries, each with role ["user"] or ["model"]
    and a truthy text, followed by the message as it was given. *)
Theorem X13_requests_are_validated
    (message chatHistory env : value) (req : Fetch.Request) :
  In req (fetches (trace (handleGeminiChat message chatHistory env))) ->
  exists key contents,
    configured env key /\ sendable message
    /\ fetches (trace (handleGeminiChat message chatHistory env)) = [req]
    /\ req = request_for (model_name env) key
               (contents ++ [content_entry (str "user") message])
    /\ List.length contents <= 10
    /\ Forall forwarded contents.
Proof.
  intros Hin.
  destruct (validation_cases message chatHistory env) as
    [ [_ E] | [ (_ & _ & E) | [ (key & _ & _ & E) | [ (key & _ & _ & _ & E)
    | (key & Hc & Hm) ] ] ] ];
    try (rewrite E in Hin; now elim Hin).
  destruct (handleGeminiChat_requests message chatHistory env key Hc Hm)
    as [E | (contents & E & Hlen & Hfw)]; rewrite E in Hin.
  - now elim Hin.
  - destruct Hin as [<- | []]. exists key, contents.
    split; [ exact Hc | ]. split; [ exact Hm | ]. split; [ exact E | ].
    split; [ reflexivity | ]. split; assumption.
Qed.

Lemma configured_key (env key : value) :
  configured env key ->
  is_nullish env = false /\ truthy (field env (str "GEMINI_API_KEY")) = true.
Proof.
  intros [Hkey Ht]. pose proof (get_prop_normal _ _ _ Hkey) as Hn.
  split; [ exact Hn | ].
  rewrite (get_prop_readable _ _ Hn) in Hkey. now injection Hkey as ->.
Qed.

Lemma sendable_not_unsendable (message : value) :
  sendable message -> unsendable message -> False.
Proof.
  intros (s & -> & Hs) [Hf | (s' & [= <-] & Hws)].
  - rewrite (trim_nonempty_truthy s Hs) in Hf. discriminate.
  - now apply Hs, trim_blank.
Qed.

(** X14. Status 400 means a missing message and nothing else: the result
    has [statusCode] 400 exactly when a key is configured and the message
    is falsy ([undefined], [null], [""], [0], [false]) or a string of
    whitespace. *)
Theorem X14_status_400 (message chatHistory env : value) (r : RelayResult) :
  outcome (handleGeminiChat message chatHistory env) = Normal r ->
  (statusCode r = 400%Z <->
   (exists key, configured env key) /\ unsendable message).
Proof.
  intros Hout.
  destruct (validation_cases message chatHistory env) as
    [ [Hn E] | [ (Hn & Hk & E) | [ (key & Hc & Hun & E)
    | [ (key & Hc & Hm & Hns & E) | (key & Hc & Hm) ] ] ] ];
    try (rewrite E in Hout; injection Hout as <-).
  - split; [ discriminate | ].
    intros [(key & Hc) _]. apply configured_key in Hc as [Hn' _]. congruence.
  - split; [ discriminate | ].
    intros [(key & Hc) _]. apply configured_key in Hc as [_ Hk']. congruence.
  - split; [ intros _; split; [ now exists key | exact Hun ] | reflexivity ].
  - split; [ discriminate | ].
    intros [_ [Hf | (s & -> & _)]]; [ congruence | now elim (Hns s) ].
  - split.
    + intros Hcode. exfalso.
      pose proof (handleGeminiChat_sendable_trace message chatHistory env key Hc Hm) as Ht.
      destruct (handleGeminiChat_kind message chatHistory env) as
        [ | | e | req r' Hr | req status body | req e ];
        cbn in Hout; injection Hout as <-;
        try (now elim Ht); try discriminate Hcode.
      destruct Hr as [(v & ->) | ->]; discriminate Hcode.
    + intros [_ Hun]. now elim (sendable_not_unsendable message Hm Hun).
Qed.

(** X15. ["API key not configured"] is returned exactly when [env] is an
    object whose [GEMINI_API_KEY] is falsy: absent, [""], [null], [0] or
    [false]. *)
Theorem X15_key_failure (message chatHistory env : value) (r : RelayResult) :
  outcome (handleGeminiChat message chatHistory env) = Normal r ->
  (error r = Some (str "API key not configured") <->
   is_nullish env = false /\ truthy (field env (str "GEMINI_API_KEY")) = false).
Proof.
  intros Hout.
  destruct (validation_cases message chatHistory env) as
    [ [Hn E] | [ (Hn & Hk & E) | [ (key & Hc & Hun & E)
    | [ (key & Hc & Hm & Hns & E) | (key & Hc & Hm) ] ] ] ];
    try (rewrite E in Hout; injection Hout as <-);
    try (apply configured_key in Hc as Hck; destruct Hck as [Hn Hk]).
  - split; [ intros H; vm_compute in H; discriminate H | intros [Hn' _]; congruence ].
  - split; [ intros _; now split | reflexivity ].
  - split; [ intros H; vm_compute in H; discriminate H | intros [_ Hk']; congruence ].
  - split; [ intros H; vm_compute in H; discriminate H | intros [_ Hk']; congruence ].
  - split; [ | intros [_ Hk']; congruence ].
    intros Herr. exfalso.
    pose proof (handleGeminiChat_sendable_trace message chatHistory env key Hc Hm) as Ht.
    destruct (handleGeminiChat_kind message chatHistory env) as
      [ | | e | req r' Hr | req status body | req e ];
      cbn in Hout; injection Hout as <-;
      try (now elim Ht); try (vm_compute in Herr; discriminate Herr).
    destruct Hr as [(v & ->) | ->]; vm_compute in Herr; discriminate Herr.
Qed.

(** X16. Every request a run sends is a POST with the single header
    [Content-Type: application/json] to the [generateContent] address of the
    model, with the key in the query; the model is [GEMINI_MODEL_NAME] when
    that is truthy and ["gemini-2.0-flash-lite"] when it is absent or
    empty. *)
Theorem X16_request_envelope
    (message chatHistory env : value) (req : Fetch.Request) :
  In req (fetches (trace (handleGeminiChat message chatHistory env))) ->
  exists key,
    configured env key
    /\ Fetch.method (Fetch.init req) = str "POST"
    /\ Fetch.headers (Fetch.init req) =
         [(str "Content-Type", str "application/json")]
    /\ (truthy (field env (str "GEMINI_MODEL_NAME")) = true ->
        Fetch.url req =
          str "https://generativelanguage.googleapis.com/v1beta/models/"
          ++ ToString (field env (str "GEMINI_MODEL_NAME"))
          ++ str ":generateContent?key=" ++ ToString key)
    /\ (truthy (field env (str "GEMINI_MODEL_NAME")) = false ->
        Fetch.url req =
          str "https://generativelanguage.googleapis.com/v1beta/models/"
          ++ ToString (VString (str "gemini-2.0-flash-lite"))
          ++ str ":generateContent?key=" ++ ToString key).
Proof.
  intros Hin.
  destruct (validation_cases message chatHistory env) as
    [ [_ E] | [ (_ & _ & E) | [ (key & _ & _ & E) | [ (key & _ & _ & _ & E)
    | (key & Hc & Hm) ] ] ] ];
    try (rewrite E in Hin; now elim Hin).
  destruct (handleGeminiChat_requests message chatHistory env key Hc Hm)
    as [E | (contents & E & _)]; rewrite E in Hin; [ now elim Hin | ].
  destruct Hin as [<- | []]. exists key.
  split; [ exact Hc | ]. split; [ reflexivity | ]. split; [ reflexivity | ].
  unfold request_for, model_name. cbn [Fetch.url].
  split; intros ->; reflexivity.
Qed.

(** X17. From the upstream text to the HTTP response: when the 2xx body
    carries a first candidate whose first part is readable, the response
    built from the handler's result has status 200, the fixed headers, and
    the serialisation of [{reply: <that part's text>}] as body. *)
Theorem X17_reply_round_trip
    (message env key result : value) (history : list value)
    (response : Fetch.Response) :
  configured env key -> sendable message -> readable (last_n 10 history) ->
  fetch (request_for (model_name env) key
           (contents_for (last_n 10 history) message)) = Normal response ->
  (200 <= Fetch.status response <= 299)%Z ->
  Fetch.json response = Normal result ->
  is_nullish result = false -> has_content result = true ->
  is_nullish (field (first_content result) (str "parts")) = false ->
  is_nullish (index0 (field (first_content result) (str "parts"))) = false ->
  exists r,
    outcome (handleGeminiChat message (VArray history) env) = Normal r
    /\ createResponse r =
       {| Http.statusCode := 200;
          Http.headers :=
            [(str "Access-Control-Allow-Origin", str "*");
             (str "Access-Control-Allow-Headers", str "Content-Type");
             (str "Access-Control-Allow-Methods", str "POST, OPTIONS");
             (str "Content-Type", str "application/json")];
          Http.body :=
            JSON_stringify
              (VObject
                 [(str "reply",
                   field (index0 (field (first_content result) (str "parts")))
                     (str "text"))]) |}.
Proof.
  intros Hc Hm Hr Hfetch Hstatus Hjson Hres Hcontent Hparts Hpart.
  rewrite (handleGeminiChat_reply message env key result history response
             Hc Hm Hr Hfetch (ok_in_range _ Hstatus) Hjson Hres Hcontent Hparts Hpart).
  eexists. split; reflexivity.
Qed.

(** X18. The HTTP response of any run: the fixed headers; then either
    status 200 with a [{reply: ...}] body, or one of five pairs of status
    and [{error: "..."}] body.  The body of a failure is a constant of the
    program. *)
Theorem X18_http_responses (message chatHistory env : value) :
  exists r,
    outcome (handleGeminiChat message chatHistory env) = Normal r
    /\ Http.headers (createResponse r) =
         [(str "Access-Control-Allow-Origin", str "*");
          (str "Access-Control-Allow-Headers", str "Content-Type");
          (str "Access-Control-Allow-Methods", str "POST, OPTIONS");
          (str "Content-Type", str "application/json")]
    /\ ((Http.statusCode (createResponse r) = 200%Z
         /\ exists v, Http.body (createResponse r) =
                      JSON_stringify (VObject [(str "reply", v)]))
        \/ exists code msg,
             In (code, msg)
                [(500%Z, "API key not configured"%string);
                 (400%Z, "Message is required"%string);
                 (500%Z, "AI service unavailable"%string);
                 (500%Z, "Invalid AI response"%string);
                 (500%Z, "Internal server error"%string)]
             /\ Http.statusCode (createResponse r) = code
             /\ Http.body (createResponse r) =
                JSON_stringify (VObject [(str "error", VString (str msg))])).
Proof.
  destruct (handleGeminiChat_kind message chatHistory env) as
    [ | | e | req r [(v & ->) | ->] | req status body | req e ];
    eexists; (split; [ reflexivity | ]); (split; [ reflexivity | ]);
    try (left; split; [ reflexivity | eexists; reflexivity ]);
    right; eexists; eexists; (split; [ | split; reflexivity ]); cbn; auto 10.
Qed.

(** ** Reading the contents off the role relation *)



End ChatHandler.

(** ** Where the candidate check falls short *)

(** C1, at two bodies the upstream can send with a 200 status.  The check
    of line 92 stops at [content]: a candidate whose content has no [parts]
    makes line 97 throw, and the result is ["Internal server error"], not
    ["Invalid AI response"]; a candidate whose first part has no [text] goes
    through as a success whose reply is [undefined].  A body with no
    [candidates] is reported as invalid, as the specification says. *)
Theorem C1_candidate_check_stops_at_content (ToString JSON_stringify : value -> jsstring) :
  outcome (handleGeminiChat ToString JSON_stringify
             (Double.respond 200 (str "") (Normal Sample.body_without_parts))
             Sample.hello (VArray []) Sample.env)
  = Normal {| success := false;
              statusCode := 500;
              reply := None;
              error := Some (str "Internal server error") |}
  /\ outcome (handleGeminiChat ToString JSON_stringify
                (Double.respond 200 (str "") (Normal Sample.body_without_text))
                Sample.hello (VArray []) Sample.env)
     = Normal {| success := true;
                 statusCode := 200;
                 reply := Some VUndefined;
                 error := None |}
  /\ outcome (handleGeminiChat ToString JSON_stringify
                (Double.respond 200 (str "") (Normal Sample.body_without_candidates))
                Sample.hello (VArray []) Sample.env)
     = Normal {| success := false;
                 statusCode := 500;
                 reply := None;
                 error := Some (str "Invalid AI response") |}.
Proof. repeat split; reflexivity. Qed.

(** C2, at the body [{"candidates":[{"content":{"parts":[{}]}}]}] with a 200
    status: the result has [success:true], yet a read of [reply] gives
    [undefined] and there is no [error]; neither field is populated, and the
    HTTP body is the serialisation of an object whose only value is
    [undefined]. *)
Theorem C2_success_with_undefined_reply (ToString JSON_stringify : value -> jsstring) :
  exists r,
    outcome (handleGeminiChat ToString JSON_stringify
               (Double.respond 200 (str "") (Normal Sample.body_without_text))
               Sample.hello (VArray []) Sample.env) = Normal r
    /\ success r = true
    /\ populated (read_reply r) = false
    /\ populated (read_error r) = false
    /\ Http.body (createResponse JSON_stringify r) =
       JSON_stringify (VObject [(str "reply", VUndefined)]).
Proof. eexists. split; [ reflexivity | repeat split ]. Qed.

(** ** Histories with a hole *)



(** The serialiser of the examples tells payloads apart: two contents that
    differ in one role have different texts. *)
Lemma stringify_separates_roles :
  Stub.stringify (request_body [content_entry (str "user") Sample.hello]) <>
  Stub.stringify (request_body [content_entry (str "model") Sample.hello]).
Proof. vm_compute. discriminate. Qed.

(** ** The theorems at concrete inputs *)

Lemma C3_blank_message_witness :
  handleGeminiChat Double.to_string Double.stringify Double.unreachable
    (VString (str "   ")) (VArray Sample.ten_turns) Sample.env =
    (Normal {| success := false;
               statusCode := 400;
               reply := None;
               error := Some (str "Message is required") |}, [])
  /\ fetches (trace (handleGeminiChat Double.to_string Double.stringify
                       Double.unreachable
                       (VString (str "   ")) (VArray Sample.ten_turns) Sample.env)) = [].
Proof.
  apply (C3_blank_message Double.to_string Double.stringify Double.unreachable
           (VString (str "   ")) (VArray Sample.ten_turns) Sample.env Sample.key).
  - split; reflexivity.
  - right; right. exists (str "   "). split; reflexivity.
Defined.

Lemma C4_missing_api_key_witness :
  handleGeminiChat Double.to_string Double.stringify Double.unreachable
    VUndefined VUndefined (VObject []) =
    (Normal {| success := false;
               statusCode := 500;
               reply := None;
               error := Some (str "API key not configured") |}, [])
  /\ fetches (trace (handleGeminiChat Double.to_string Double.stringify
                       Double.unreachable VUndefined VUndefined (VObject []))) = [].
Proof.
  apply (C4_missing_api_key Double.to_string Double.stringify Double.unreachable
           VUndefined VUndefined (VObject []) VUndefined).
  - reflexivity.
  - left; reflexivity.
Defined.

Lemma C5_only_last_ten_witness :
  handleGeminiChat Double.to_string Double.stringify Double.unreachable
    Sample.hello (VArray ([VNull; Sample.turn "user" "0"] ++ Sample.ten_turns))
    Sample.env =
  handleGeminiChat Double.to_string Double.stringify Double.unreachable
    Sample.hello (VArray Sample.ten_turns) Sample.env
  /\ fetches (trace (handleGeminiChat Double.to_string Double.stringify
                       Double.unreachable Sample.hello
                       (VArray ([VNull; Sample.turn "user" "0"] ++ Sample.ten_turns))
                       Sample.env)) =
     [request_for Double.to_string Double.stringify (model_name Sample.env) Sample.key
        (contents_for Sample.ten_turns Sample.hello)].
Proof.
  destruct (C5_only_last_ten Double.to_string Double.stringify Double.unreachable
              Sample.hello Sample.env
              [VNull; Sample.turn "user" "0"] Sample.ten_turns eq_refl) as [Hrun Hreq].
  split; [ exact Hrun | ].
  apply Hreq.
  - split; reflexivity.
  - exists (str "Hello"). split; [ reflexivity | discriminate ].
  - repeat constructor.
Defined.



Lemma C9_upstream_failure_normalised_witness :
  handleGeminiChat Double.to_string Double.stringify
    (Double.respond 503 (str "overloaded") (Abrupt (Rejected (str "not JSON"))))
    Sample.hello (VArray Sample.ten_turns) Sample.env =
  (Normal {| success := false;
             statusCode := 500;
             reply := None;
             error := Some (str "AI service unavailable") |},
   [EFetch (request_for Double.to_string Double.stringify
              (model_name Sample.env) Sample.key
              (contents_for Sample.ten_turns Sample.hello));
    EConsoleError [LStr (str "Gemini API error:"); LNum 503;
                   LStr (str "overloaded")]]).
Proof.
  refine (C9_upstream_failure_normalised
            Double.to_string Double.stringify
            (Double.respond 503 (str "overloaded") (Abrupt (Rejected (str "not JSON"))))
            Sample.hello Sample.env Sample.key Sample.ten_turns
            {| Fetch.status := 503;
               Fetch.text := Normal (str "overloaded");
               Fetch.json := Abrupt (Rejected (str "not JSON")) |}
            (str "overloaded") _ _ _ _ _ _).
  - split; reflexivity.
  - exists (str "Hello"). split; [ reflexivity | discriminate ].
  - repeat constructor.
  - reflexivity.
  - right. reflexivity.
  - reflexivity.
Defined.

Lemma C10_empty_string_like_missing_witness :
  retained (VObject [(str "sender", VString (str "")); 
                     (str "message", VString (str "lost"))]) = false
  /\ handleGeminiChat Double.to_string Double.stringify Double.unreachable
       Sample.hello
       (VArray ([Sample.turn "user" "Hi"]
                ++ VObject [(str "sender", VString (str ""));
                            (str "message", VString (str "lost"))]
                   :: [Sample.turn "bot" "Welcome"]))
       Sample.env =
     handleGeminiChat Double.to_string Double.stringify Double.unreachable
       Sample.hello
       (VArray ([Sample.turn "user" "Hi"] ++ [Sample.turn "bot" "Welcome"]))
       Sample.env
  /\ handleGeminiChat Double.to_string Double.stringify Double.unreachable
       Sample.hello
       (VArray ([Sample.turn "user" "Hi"]
                ++ VObject [(str "sender", VString (str ""));
                            (str "message", VString (str "lost"))]
                   :: [Sample.turn "bot" "Welcome"]))
       Sample.env =
     handleGeminiChat Double.to_string Double.stringify Double.unreachable
       Sample.hello
       (VArray ([Sample.turn "user" "Hi"]
                ++ VObject [(str "message", VString (str "lost"))]
                   :: [Sample.turn "bot" "Welcome"]))
       Sample.env.
Proof.
  apply (C10_empty_string_like_missing
           Double.to_string Double.stringify Double.unreachable
           Sample.hello Sample.env).
  - left. eexists. split; reflexivity.
  - left. eexists. split; reflexivity.
  - cbn. lia.
Defined.

(** ** The request body *)

Section RequestBodyFacts.

Variable JSON_parse : jsstring -> completion value.
Variable Buffer_toString : list Byte.byte -> jsstring.

(** X19. [parseRequestBody] has no [try]: it throws exactly what
    [JSON.parse] throws on the text of the body (the string itself, or the
    decoded buffer), and it cannot throw on any other body. *)
Theorem X19_parse_errors_are_the_parsers (body : raw_body) (e : exn) :
  parseRequestBody JSON_parse Buffer_toString body = Abrupt e ->
  exists text,
    (body = Plain (VString text)
     \/ exists bytes, body = Buffer bytes /\ text = Buffer_toString bytes)
    /\ JSON_parse text = Abrupt e.
Proof.
  destruct body as [v | bytes]; cbn.
  - destruct v; try discriminate. intros H. exists s. auto.
  - intros H. exists (Buffer_toString bytes). split; [ right; eauto | exact H ].
Qed.

(** A body that is already a document (anything but a string or a buffer)
    is returned as it is, without a call to the parser. *)
Lemma parseRequestBody_plain (v : value) :
  (forall s, v <> VString s) ->
  parseRequestBody JSON_parse Buffer_toString (Plain v) = Normal v.
Proof. intros H. destruct v; try reflexivity. now elim (H s). Qed.

End RequestBodyFacts.

(** ** Further theorems at concrete inputs *)

Lemma X1_missing_env_witness :
  handleGeminiChat Double.to_string Double.stringify Double.unreachable
    Sample.hello (VArray Sample.ten_turns) VUndefined =
  (Normal {| success := false;
             statusCode := 500;
             reply := None;
             error := Some (str "Internal server error") |},
   [EConsoleError [LStr (str "Chat handler error:"); LExn TypeError]]).
Proof.
  apply (X1_missing_env Double.to_string Double.stringify Double.unreachable).
  reflexivity.
Defined.

Lemma X2_message_not_a_string_witness :
  handleGeminiChat Double.to_string Double.stringify Double.unreachable
    (VArray [Sample.hello]) (VArray []) Sample.env =
  (Normal {| success := false;
             statusCode := 500;
             reply := None;
             error := Some (str "Internal server error") |},
   [EConsoleError [LStr (str "Chat handler error:"); LExn TypeError]]).
Proof.
  apply (X2_message_not_a_string Double.to_string Double.stringify
           Double.unreachable (VArray [Sample.hello]) (VArray []) Sample.env Sample.key).
  - split; reflexivity.
  - reflexivity.
  - discriminate.
Defined.

Lemma X3_history_not_a_sequence_witness :
  handleGeminiChat Double.to_string Double.stringify Double.unreachable
    Sample.hello VNull Sample.env =
  (Normal {| success := false;
             statusCode := 500;
             reply := None;
             error := Some (str "Internal server error") |},
   [EConsoleError [LStr (str "Chat handler error:"); LExn TypeError]]).
Proof.
  apply (X3_history_not_a_sequence Double.to_string Double.stringify
           Double.unreachable Sample.hello VNull Sample.env Sample.key).
  - split; reflexivity.
  - exists (str "Hello"). split; [ reflexivity | discriminate ].
  - discriminate.
  - discriminate.
  - discriminate.
Defined.

Lemma X5_null_entry_in_window_witness :
  handleGeminiChat Double.to_string Double.stringify Double.unreachable
    Sample.hello
    (VArray [Sample.turn "user" "Hi"; VNull; Sample.turn "bot" "Welcome"])
    Sample.env =
  (Normal {| success := false;
             statusCode := 500;
             reply := None;
             error := Some (str "Internal server error") |},
   [EConsoleError [LStr (str "Chat handler error:"); LExn TypeError]]).
Proof.
  apply (X5_null_entry_in_window Double.to_string Double.stringify
           Double.unreachable Sample.hello Sample.env Sample.key VNull
           [Sample.turn "user" "Hi"; VNull; Sample.turn "bot" "Welcome"]
           [Sample.turn "user" "Hi"] [Sample.turn "bot" "Welcome"]).
  - split; reflexivity.
  - exists (str "Hello"). split; [ reflexivity | discriminate ].
  - reflexivity.
  - repeat constructor.
  - reflexivity.
Defined.

Lemma X6_network_failure_witness :
  handleGeminiChat Double.to_string Double.stringify Double.unreachable
    Sample.hello (VArray []) Sample.env =
  (Normal {| success := false;
             statusCode := 500;
             reply := None;
             error := Some (str "Internal server error") |},
   [EFetch (request_for Double.to_string Double.stringify
              (model_name Sample.env) Sample.key
              (contents_for [] Sample.hello));
    EConsoleError [LStr (str "Chat handler error:");
                   LExn (Rejected (str "fetch failed"))]]).
Proof.
  apply (X6_network_failure Double.to_string Double.stringify Double.unreachable
           Sample.hello Sample.env Sample.key []).
  - split; reflexivity.
  - exists (str "Hello"). split; [ reflexivity | discriminate ].
  - constructor.
  - reflexivity.
Defined.

Lemma X7_unparsable_success_body_witness :
  handleGeminiChat Double.to_string Double.stringify
    (Stub.answer 200 (Normal (str "<html>")) (Abrupt (Rejected (str "Unexpected token"))))
    Sample.hello (VArray []) Sample.env =
  (Normal {| success := false;
             statusCode := 500;
             reply := None;
             error := Some (str "Internal server error") |},
   [EFetch (request_for Double.to_string Double.stringify
              (model_name Sample.env) Sample.key
              (contents_for [] Sample.hello));
    EConsoleError [LStr (str "Chat handler error:");
                   LExn (Rejected (str "Unexpected token"))]]).
Proof.
  refine (X7_unparsable_success_body Double.to_string Double.stringify
            (Stub.answer 200 (Normal (str "<html>"))
               (Abrupt (Rejected (str "Unexpected token"))))
            Sample.hello Sample.env Sample.key []
            {| Fetch.status := 200;
               Fetch.text := Normal (str "<html>");
               Fetch.json := Abrupt (Rejected (str "Unexpected token")) |}
            (Rejected (str "Unexpected token")) _ _ _ _ _ _).
  - split; reflexivity.
  - exists (str "Hello"). split; [ reflexivity | discriminate ].
  - constructor.
  - reflexivity.
  - cbn. lia.
  - reflexivity.
Defined.

Lemma X8_unreadable_failure_body_witness :
  handleGeminiChat Double.to_string Double.stringify
    (Stub.answer 502 (Abrupt (Rejected (str "terminated"))) (Normal VNull))
    Sample.hello (VArray []) Sample.env =
  (Normal {| success := false;
             statusCode := 500;
             reply := None;
             error := Some (str "Internal server error") |},
   [EFetch (request_for Double.to_string Double.stringify
              (model_name Sample.env) Sample.key
              (contents_for [] Sample.hello));
    EConsoleError [LStr (str "Chat handler error:");
                   LExn (Rejected (str "terminated"))]]).
Proof.
  refine (X8_unreadable_failure_body Double.to_string Double.stringify
            (Stub.answer 502 (Abrupt (Rejected (str "terminated"))) (Normal VNull))
            Sample.hello Sample.env Sample.key []
            {| Fetch.status := 502;
               Fetch.text := Abrupt (Rejected (str "terminated"));
               Fetch.json := Normal VNull |}
            (Rejected (str "terminated")) _ _ _ _ _ _).
  - split; reflexivity.
  - exists (str "Hello"). split; [ reflexivity | discriminate ].
  - constructor.
  - reflexivity.
  - right. reflexivity.
  - reflexivity.
Defined.

Lemma X9_success_status_paths_witness :
  handleGeminiChat Double.to_string Double.stringify
    (Stub.answer 200 (Normal (str "")) (Normal Stub.body_with_text))
    Sample.hello (VArray []) Sample.env =
  (Normal {| success := true;
             statusCode := 200;
             reply := Some (VString (str "Hi there"));
             error := None |},
   [EFetch (request_for Double.to_string Double.stringify
              (model_name Sample.env) Sample.key
              (contents_for [] Sample.hello))]).
Proof.
  refine (X9_success_status_paths Double.to_string Double.stringify
            (Stub.answer 200 (Normal (str "")) (Normal Stub.body_with_text))
            Sample.hello Sample.env Sample.key Stub.body_with_text []
            {| Fetch.status := 200;
               Fetch.text := Normal (str "");
               Fetch.json := Normal Stub.body_with_text |} _ _ _ _ _ _).
  - split; reflexivity.
  - exists (str "Hello"). split; [ reflexivity | discriminate ].
  - constructor.
  - reflexivity.
  - cbn. lia.
  - reflexivity.
Defined.

Lemma X13_requests_are_validated_witness :
  exists contents,
    fetches (trace (handleGeminiChat Double.to_string Double.stringify
                      Double.unreachable Sample.hello
                      (VArray Sample.ten_turns) Sample.env)) =
      [request_for Double.to_string Double.stringify
         (model_name Sample.env) Sample.key
         (contents ++ [content_entry (str "user") Sample.hello])]
    /\ List.length contents <= 10.
Proof.
  destruct (X13_requests_are_validated Double.to_string Double.stringify
              Double.unreachable Sample.hello (VArray Sample.ten_turns) Sample.env
              (request_for Double.to_string Double.stringify
                 (model_name Sample.env) Sample.key
                 (contents_for Sample.ten_turns Sample.hello)))
    as (key & contents & [Hkey _] & _ & Hsent & Hreq & Hlen & _).
  - left. reflexivity.
  - injection Hkey as <-. exists contents.
    split; [ rewrite Hsent; f_equal; exact Hreq | exact Hlen ].
Defined.

Lemma X14_status_400_witness :
  (exists key, configured Sample.env key) /\ unsendable (VNumber (S754_zero false)).
Proof.
  apply (X14_status_400 Double.to_string Double.stringify Double.unreachable
           (VNumber (S754_zero false)) VUndefined Sample.env
           {| success := false;
              statusCode := 400;
              reply := None;
              error := Some (str "Message is required") |});
    reflexivity.
Defined.

Lemma X15_key_failure_witness :
  is_nullish (VObject [(str "GEMINI_API_KEY", VNull)]) = false
  /\ truthy (field (VObject [(str "GEMINI_API_KEY", VNull)])
               (str "GEMINI_API_KEY")) = false.
Proof.
  apply (X15_key_failure Double.to_string Double.stringify Double.unreachable
           Sample.hello VUndefined (VObject [(str "GEMINI_API_KEY", VNull)])
           {| success := false;
              statusCode := 500;
              reply := None;
              error := Some (str "API key not configured") |});
    reflexivity.
Defined.

Lemma X16_request_envelope_witness :
  Fetch.url (request_for Double.to_string Double.stringify
               (model_name Sample.env) Sample.key
               (contents_for [] Sample.hello)) =
  str "https://generativelanguage.googleapis.com/v1beta/models/gemini-2.0-flash-lite:generateContent?key=secret".
Proof.
  destruct (X16_request_envelope Double.to_string Double.stringify
              Double.unreachable Sample.hello (VArray []) Sample.env
              (request_for Double.to_string Double.stringify
                 (model_name Sample.env) Sample.key
                 (contents_for [] Sample.hello)))
    as (key & [Hkey _] & _ & _ & _ & Hdefault).
  - left. reflexivity.
  - injection Hkey as <-. rewrite (Hdefault eq_refl). reflexivity.
Defined.

Lemma X17_reply_round_trip_witness :
  exists r,
    outcome (handleGeminiChat Double.to_string Double.stringify
               (Stub.answer 200 (Normal (str "")) (Normal Stub.body_with_text))
               Sample.hello (VArray []) Sample.env) = Normal r
    /\ Http.statusCode (createResponse Double.stringify r) = 200%Z
    /\ Http.body (createResponse Double.stringify r) =
       Double.stringify (VObject [(str "reply", VString (str "Hi there"))]).
Proof.
  destruct (X17_reply_round_trip Double.to_string Double.stringify
              (Stub.answer 200 (Normal (str "")) (Normal Stub.body_with_text))
              Sample.hello Sample.env Sample.key Stub.body_with_text []
              {| Fetch.status := 200;
                 Fetch.text := Normal (str "");
                 Fetch.json := Normal Stub.body_with_text |})
    as (r & Hout & Hresp).
  - split; reflexivity.
  - exists (str "Hello"). split; [ reflexivity | discriminate ].
  - constructor.
  - reflexivity.
  - cbn. lia.
  - reflexivity.
  - reflexivity.
  - reflexivity.
  - reflexivity.
  - reflexivity.
  - exists r. split; [ exact Hout | ]. rewrite Hresp. split; reflexivity.
Defined.

Lemma X19_parse_errors_are_the_parsers_witness :
  exists text,
    (Buffer Stub.decode_me = Plain (VString text)
     \/ exists bytes, Buffer Stub.decode_me = Buffer bytes /\ text = Stub.decode bytes)
    /\ Stub.parse text = Abrupt (Rejected (str "Unexpected token")).
Proof.
  apply (X19_parse_errors_are_the_parsers Stub.parse Stub.decode).
  reflexivity.
Defined.
